(** * GPflow: the naming tree ([gpflow/core/parentable.py]) and the sparse
      variational GP model ([gpflow/svgp.py])

    A shallow embedding of the two Python modules, with the statements the
    specification makes about them.

    - [Parentable] threads the class attribute [Parentable.__index] through a
      state monad over the counter; nodes live in a heap indexed by reference.
    - [SVGP] is written over an abstract tensor backend (the TensorFlow
      operations it calls) and abstract collaborators (kernel, likelihood,
      mean function, conditionals, kullback_leiblers); numpy arrays built by
      the constructor are concrete.  The backend tells which calls raise;
      [linear_weights_posterior] makes its calls in sequence and stops at
      the first that does. *)

From Stdlib Require Import ZArith NArith Bool List String Ascii Lia.
From Stdlib Require Import DecimalString DecimalN DecimalFacts Sorted.
From Stdlib Require Import QArith Qcanon Floats.
From stdpp Require Import base option list.

Import ListNotations.
Local Open Scope string_scope.
Local Open Scope list_scope.

(* ===================================================================== *)
(** * Python strings *)
(* ===================================================================== *)

(** A string is the sequence of its code points; a character of [string]
    stands for the code point of the same number, U+0000 to U+00FF. *)

Module PyStr.

(** [c.isdigit()] for one character.  Below U+0100 the characters with the
    Unicode property Numeric_Type=Decimal or Numeric_Type=Digit are the
    digits [0] to [9] and the superscripts two, three and one (U+00B2,
    U+00B3, U+00B9). *)
Definition is_digit_char (c : ascii) : bool :=
  let n := nat_of_ascii c in
  ((48 <=? n)%nat && (n <=? 57)%nat)
  || (n =? 178)%nat || (n =? 179)%nat || (n =? 185)%nat.

Fixpoint all_digits (s : string) : bool :=
  match s with
  | EmptyString => true
  | String c s' => is_digit_char c && all_digits s'
  end.

(** [s.isdigit()]: every character is a digit and there is at least
    one. *)
Definition isdigit (s : string) : bool :=
  match s with
  | EmptyString => false
  | _ => all_digits s
  end.

(** The text before the first ['/'] and, when there is one, the text
    after it. *)
Fixpoint cut_slash (s : string) : string * option string :=
  match s with
  | EmptyString => (EmptyString, None)
  | String c s' =>
      if Ascii.eqb c "/"%char then (EmptyString, Some s')
      else let '(a, b) := cut_slash s' in (String c a, b)
  end.

(** [s.split(sep='/', maxsplit=1)]: one piece when [s] has no slash, two
    pieces otherwise. *)
Definition split_slash_1 (s : string) : list string :=
  match cut_slash s with
  | (a, None) => [a]
  | (a, Some b) => [a; b]
  end.

(** [str(n)] for a non-negative Python int. *)
Definition str_of_N (n : N) : string := NilZero.string_of_uint (N.to_uint n).

(** The number written by a string of the decimal digits [0] to [9];
    [None] for any other string. *)
Definition N_of_str (s : string) : option N :=
  option_map N.of_uint (NilZero.uint_of_string s).

(** ['{index}/{name}'.format(index=index, name=name)] *)
Definition format_index_name (index : N) (name : string) : string :=
  (str_of_N index ++ "/" ++ name)%string.

End PyStr.

(* ===================================================================== *)
(** * gpflow/core/parentable.py *)
(* ===================================================================== *)

Module Parentable.
Import PyStr.

(** A reference to a node: its position in the heap. *)
Definition ref := nat.

(** One [Parentable] instance.  [cls_name] is [self.__class__.__name__];
    [_parent] is [None] or a reference. *)
Record obj := Obj {
  cls_name : string;
  _parent : option ref;
  _name : string
}.

(** Computations that read and bump the class attribute
    [Parentable.__index]. *)
Definition M (A : Type) : Type := N -> A * N.

Definition ret {A} (a : A) : M A := fun i => (a, i).
Definition bind {A B} (m : M A) (k : A -> M B) : M B :=
  fun i => let '(a, i') := m i in k a i'.

Notation "'let*' x ':=' m 'in' k" := (bind m (fun x => k))
  (at level 10, x name, m at level 100, k at level 200).

(** [_read_index]: [index = cls.__index; cls.__index += 1; return index].
    The only caller invokes it as [Parentable._read_index(self)], so [cls]
    is always [Parentable] itself. *)
Definition _read_index : M N := fun index => (index, (index + 1)%N).

(** Truthiness of the [name] argument: [None] and [''] are falsy. *)
Definition truthy (name : option string) : bool :=
  match name with
  | None => false
  | Some EmptyString => false
  | Some _ => true
  end.

(** [_define_name(self, name)]; [cls] is the class name of [self]. *)
Definition _define_name (cls : string) (name : option string) : M string :=
  if truthy name then ret (default "" name)
  else
    let cls_name := cls in
    let* index := _read_index in
    ret (format_index_name index cls_name).

(** [__init__(self, name=None)] on a fresh instance of class [cls]. *)
Definition __init__ (cls : string) (name : option string) : M obj :=
  let* n := _define_name cls name in
  ret {| cls_name := cls; _parent := None; _name := n |}.

(** The [name] property. *)
Definition name (self : obj) : string :=
  let name := split_slash_1 (_name self) in
  if (1 <? length name)%nat && isdigit (nth 0 name "")
  then nth 1 name ""
  else _name self.

(** The [hidden_name] property. *)
Definition hidden_name (self : obj) : string := _name self.

(** [set_name(self, name=None)] *)
Definition set_name (self : obj) (name : option string) : M obj :=
  let* n := _define_name (cls_name self) name in
  ret {| cls_name := cls_name self; _parent := _parent self; _name := n |}.

(** [set_parent(self, parent=None)] *)
Definition set_parent (self : obj) (parent : option ref) : obj :=
  {| cls_name := cls_name self; _parent := parent; _name := _name self |}.

(** [_reset_name(self)] *)
Definition _reset_name (self : obj) : M obj :=
  if String.eqb (hidden_name self) (name self) then ret self
  else
    let* n := _define_name (cls_name self) None in
    ret {| cls_name := cls_name self; _parent := _parent self; _name := n |}.

(** ** The heap of nodes *)

Abbreviation heap := (list obj).

(** The [parent] property of the node [o] stored at [self]: the node itself
    when [_parent is None].  The result is a Python value, [None] or a
    reference. *)
Definition parent (self : ref) (o : obj) : option ref :=
  match _parent o with
  | None => Some self
  | Some p => Some p
  end.

(** The [root] property; [depth] bounds the recursion through
    [self._parent.root] (Python's recursion limit): it is the number of
    frames left, the getter itself taking one. *)
Fixpoint root (depth : nat) (h : heap) (self : ref) : option ref :=
  match depth with
  | O => None
  | S depth' =>
      o ← h !! self;
      match _parent o with
      | None => Some self
      | Some p => root depth' h p
      end
  end.

(** Modelled from the spec: [misc.tensor_name] (gpflow/misc.py) joins the
    path components with a slash, by a built-in. *)
Definition tensor_name (parent_name name : string) : string :=
  (parent_name ++ "/" ++ name)%string.

(** A call made from a frame that has [depth] frames left below it: the
    callee takes one of them, and with none left Python raises
    [RecursionError].  The getter of the [name] property calls built-ins
    only ([str.split], [len], [str.isdigit]), which take no frame. *)
Definition frame {A : Type} (depth : nat) (v : A) : option A :=
  match depth with
  | O => None
  | S _ => Some v
  end.

(** The [full_name] property; [depth] is the number of frames left, the
    getter itself taking one.  The node without parent reads [self.name],
    one frame deeper than the last frame of [root]. *)
Fixpoint full_name (depth : nat) (h : heap) (self : ref) : option string :=
  match depth with
  | O => None
  | S depth' =>
      o ← h !! self;
      match _parent o with
      | None => frame depth' (name o)
      | Some p =>
          parent_full_name ← full_name depth' h p;
          self_name ← frame depth' (name o);
          frame depth' (tensor_name parent_full_name self_name)
      end
  end.

(** The [hidden_full_name] property; the node without parent returns the
    attribute [_name], which is no call. *)
Fixpoint hidden_full_name (depth : nat) (h : heap) (self : ref)
  : option string :=
  match depth with
  | O => None
  | S depth' =>
      o ← h !! self;
      match _parent o with
      | None => Some (_name o)
      | Some p =>
          parent_hidden_full_name ← hidden_full_name depth' h p;
          self_name ← frame depth' (name o);
          frame depth' (tensor_name parent_hidden_full_name self_name)
      end
  end.

(** ** Programs over the naming tree *)

Record world := World { index : N; nodes : heap }.

Inductive cmd :=
| New (cls : string) (name : option string)
| SetName (self : ref) (name : option string)
| SetParent (self : ref) (parent : option ref)
| ResetName (self : ref).

(** Apply a method that returns the updated node to the node at [self];
    references always point into the heap, a command on anything else does
    nothing. *)
Definition update (w : world) (self : ref) (f : obj -> M obj) : world :=
  match nodes w !! self with
  | Some o => let '(o', i) := f o (index w) in
              World i (<[self := o']> (nodes w))
  | None => w
  end.

Definition exec (c : cmd) (w : world) : world :=
  match c with
  | New cls name =>
      let '(o, i) := __init__ cls name (index w) in
      World i (nodes w ++ [o])
  | SetName self name => update w self (fun o => set_name o name)
  | SetParent self p => update w self (fun o => ret (set_parent o p))
  | ResetName self => update w self _reset_name
  end.

(** The numeric prefix of a hidden name, when it has one. *)
Definition prefix_number (s : string) : option N :=
  match split_slash_1 s with
  | [a; _] => if isdigit a then N_of_str a else None
  | _ => None
  end.

(** Runs a program and records, for every node created without a (truthy)
    name, the hidden name it got at creation. *)
Fixpoint run (cs : list cmd) (w : world) : world * list string :=
  match cs with
  | [] => (w, [])
  | c :: cs' =>
      let w1 := exec c w in
      let created :=
        match c with
        | New _ name =>
            if truthy name then []
            else match nodes w1 !! length (nodes w) with
                 | Some o => [hidden_name o]
                 | None => []
                 end
        | _ => []
        end in
      let '(w2, log) := run cs' w1 in
      (w2, created ++ log)
  end.

Definition empty_world : world := World 0 [].

(** The classes of the nodes a program creates without a (truthy) name, in
    the order of their creation. *)
Fixpoint unnamed_classes (cs : list cmd) : list string :=
  match cs with
  | [] => []
  | New cls name :: cs' =>
      if truthy name then unnamed_classes cs'
      else cls :: unnamed_classes cs'
  | _ :: cs' => unnamed_classes cs'
  end.

End Parentable.


(* ===================================================================== *)
(** * Python exceptions *)
(* ===================================================================== *)

Module Py.

Inductive exn :=
| AssertionError (msg : string)
| NotImplementedError
| IndexError
| ValueError
| AxisError.

(** The outcome of a call: a value, or a raised exception that nobody
    caught. *)
Inductive result (A : Type) :=
| Ok (a : A)
| Raise (e : exn).
Arguments Ok {A} a.
Arguments Raise {A} e.

Definition bind {A B} (r : result A) (k : A -> result B) : result B :=
  match r with
  | Ok a => k a
  | Raise e => Raise e
  end.

Definition returns {A} (r : result A) : bool :=
  match r with Ok _ => true | Raise _ => false end.

(** The first exception in a sequence of outcomes, [None] when there is
    none. *)
Fixpoint first_raise (l : list (option exn)) : option exn :=
  match l with
  | [] => None
  | Some e :: _ => Some e
  | None :: l' => first_raise l'
  end.

End Py.

Notation "'do' x '<-' r ';' k" := (Py.bind r (fun x => k))
  (at level 10, x name, r at level 100, k at level 200).

(* ===================================================================== *)
(** * numpy arrays *)
(* ===================================================================== *)

Module Numpy.
Import Py.

(** An array is a shape, strides (counted in elements) and a flat buffer,
    as numpy lays it out. *)
Record ndarray (A : Type) := NDArray {
  shape : list nat;
  strides : list nat;
  buffer : list A
}.
Arguments NDArray {A} shape strides buffer.
Arguments shape {A} _.
Arguments strides {A} _.
Arguments buffer {A} _.

Definition size_of (sh : list nat) : nat := fold_right Nat.mul 1%nat sh.

(** Row-major (C order) strides of a freshly allocated array. *)
Fixpoint c_strides (sh : list nat) : list nat :=
  match sh with
  | [] => []
  | _ :: sh' => size_of sh' :: c_strides sh'
  end.

Fixpoint offset (st idx : list nat) : nat :=
  match st, idx with
  | s :: st', i :: idx' => (s * i + offset st' idx')%nat
  | _, _ => 0%nat
  end.

Fixpoint in_bounds (sh idx : list nat) : bool :=
  match sh, idx with
  | [], [] => true
  | d :: sh', i :: idx' => (i <? d)%nat && in_bounds sh' idx'
  | _, _ => false
  end.

Section Arrays.
Context {A : Type}.

(** [a[i0, i1, ...]] for a full index inside the shape. *)
Definition get (a : ndarray A) (idx : list nat) : option A :=
  if in_bounds (shape a) idx then buffer a !! offset (strides a) idx
  else None.

Definition ndim (a : ndarray A) : nat := length (shape a).

(** [a.shape[k]]; indexing the shape tuple out of range raises. *)
Definition shape_at (a : ndarray A) (k : nat) : result nat :=
  match shape a !! k with
  | Some d => Ok d
  | None => Raise IndexError
  end.

Definition full (v : A) (sh : list nat) : ndarray A :=
  NDArray sh (c_strides sh) (repeat v (size_of sh)).

(** [np.zeros(shape)] / [np.ones(shape)]: a negative dimension raises
    [ValueError]. *)
Definition filled (v : A) (sh : list Z) : result (ndarray A) :=
  if forallb (fun d => (0 <=? d)%Z) sh then Ok (full v (map Z.to_nat sh))
  else Raise ValueError.

Definition zeros (zero : A) (sh : list Z) := filled zero sh.
Definition ones (one : A) (sh : list Z) := filled one sh.

(** [np.eye(n)] *)
Definition eye (zero one : A) (n : nat) : ndarray A :=
  NDArray [n; n] (c_strides [n; n])
    (flat_map (fun i => map (fun j => if (i =? j)%nat then one else zero)
                            (seq 0 n))
              (seq 0 n)).

(** [np.array([a0, a1, ...])] for C-contiguous arrays of one shape (what
    [np.eye] returns): the buffers are copied one after the other under a
    new leading axis.  The empty list gives the empty 1-d array. *)
Definition array (items : list (ndarray A)) : ndarray A :=
  match items with
  | [] => NDArray [0%nat] (c_strides [0%nat]) []
  | a :: _ =>
      let sh := length items :: shape a in
      NDArray sh (c_strides sh) (concat (map buffer items))
  end.

Definition swap (l : list nat) (i j : nat) : list nat :=
  match l !! i, l !! j with
  | Some x, Some y => <[i := y]> (<[j := x]> l)
  | _, _ => l
  end.

(** [a.swapaxes(i, j)]: a view on the same buffer with the two shape and
    stride entries exchanged; an axis outside the array raises. *)
Definition swapaxes (a : ndarray A) (i j : nat) : result (ndarray A) :=
  if (i <? ndim a)%nat && (j <? ndim a)%nat
  then Ok (NDArray (swap (shape a) i j) (swap (strides a) i j) (buffer a))
  else Raise AxisError.

End Arrays.

End Numpy.

(* ===================================================================== *)
(** * The tensor backend *)
(* ===================================================================== *)

Module TF.

(** A call of one of the operations [linear_weights_posterior] builds its
    graph with, together with its operands. *)
Inductive call (T : Type) :=
| Add (a b : T)
| Mul (a b : T)
| Neg (a : T)
| Eye (num_rows : Z) (num_columns : option Z)
| Matmul (a b : T) (transpose_a transpose_b : bool)
| Transpose (a : T)
| Cholesky (a : T)
| CholeskySolve (chol rhs : T)
| MatrixTriangularSolve (matrix rhs : T) (lower : bool)
| Squeeze (a : T).
Arguments Add {T} a b.
Arguments Mul {T} a b.
Arguments Neg {T} a.
Arguments Eye {T} num_rows num_columns.
Arguments Matmul {T} a b transpose_a transpose_b.
Arguments Transpose {T} a.
Arguments Cholesky {T} a.
Arguments CholeskySolve {T} chol rhs.
Arguments MatrixTriangularSolve {T} matrix rhs lower.
Arguments Squeeze {T} a.

(** The TensorFlow operations [svgp.py] calls.  [Scalar] is the element
    type [float_type] of the numpy arrays handed to the backend.

    An operation rejects operands of a rank or shape it cannot take by
    raising while the graph is built: [raises c] is the exception of the
    call [c], [None] when the call returns, and [shape_raises t k] the same
    for [tf.shape(t)[k]].  The field of an operation is the value of a call
    that returns. *)
Record backend := Backend {
  Scalar : Type;
  s0 : Scalar;
  s1 : Scalar;
  Tensor : Type;
  BoolTensor : Type;
  convert_to_tensor : Numpy.ndarray Scalar -> Tensor;
  constant : Scalar -> Tensor;
  constant_bool : bool -> BoolTensor;
  cast : Z -> Tensor;
  dim : Tensor -> nat -> Z;
  add : Tensor -> Tensor -> Tensor;
  sub : Tensor -> Tensor -> Tensor;
  mul : Tensor -> Tensor -> Tensor;
  div : Tensor -> Tensor -> Tensor;
  neg : Tensor -> Tensor;
  eye : Z -> option Z -> Tensor;
  matmul : Tensor -> Tensor -> bool -> bool -> Tensor;
  transpose : Tensor -> Tensor;
  cholesky : Tensor -> Tensor;
  cholesky_solve : Tensor -> Tensor -> Tensor;
  matrix_triangular_solve : Tensor -> Tensor -> bool -> Tensor;
  squeeze : Tensor -> Tensor;
  reduce_sum : Tensor -> Tensor;
  raises : call Tensor -> option Py.exn;
  shape_raises : Tensor -> nat -> option Py.exn
}.

(** The value of a call that returns. *)
Definition value (B : backend) (c : call (Tensor B)) : Tensor B :=
  match c with
  | Add a b => add B a b
  | Mul a b => mul B a b
  | Neg a => neg B a
  | Eye num_rows num_columns => eye B num_rows num_columns
  | Matmul a b transpose_a transpose_b => matmul B a b transpose_a transpose_b
  | Transpose a => transpose B a
  | Cholesky a => cholesky B a
  | CholeskySolve chol rhs => cholesky_solve B chol rhs
  | MatrixTriangularSolve matrix rhs lower =>
      matrix_triangular_solve B matrix rhs lower
  | Squeeze a => squeeze B a
  end.

(** A call: it raises, or returns its value. *)
Definition run (B : backend) (c : call (Tensor B)) : Py.result (Tensor B) :=
  match raises B c with
  | Some e => Py.Raise e
  | None => Py.Ok (value B c)
  end.

(** [tf.shape(t)[k]] *)
Definition shape_at (B : backend) (t : Tensor B) (k : nat) : Py.result Z :=
  match shape_raises B t k with
  | Some e => Py.Raise e
  | None => Py.Ok (dim B t k)
  end.

(** The counts [ok] on which dividing the cast of a count by itself gives
    one. *)
Definition exact_division_on (B : backend) (ok : Z -> Prop) : Prop :=
  forall z : Z, ok z -> div B (cast B z) (cast B z) = cast B 1.

End TF.

(* ===================================================================== *)
(** * The collaborators of the model *)
(* ===================================================================== *)

Module GPflow.
Import Py.

(** [transforms.positive] and [transforms.LowerTriangular(N, num_matrices)] *)
Inductive Transform :=
| positive
| LowerTriangular (N : Z) (num_matrices : Z).

(** Modelled from the spec: [Param] (gpflow/param.py), a numeric array with
    the transform that constrains it; [transform] is [None] when the
    constructor got no transform. *)
Record Param (A : Type) := MkParam {
  value : Numpy.ndarray A;
  transform : option Transform
}.
Arguments MkParam {A} value transform.
Arguments value {A} _.
Arguments transform {A} _.

(** [np.random.RandomState(seed)] *)
Record RandomState := MkRandomState { seed : Z }.

(** Modelled from the spec: [MinibatchData] (gpflow/minibatch.py), a view
    over a full data array that yields a subset of [minibatch_size] rows
    on each access, drawn with its own generator. *)
Record MinibatchData (A : Type) := MkMinibatchData {
  data : Numpy.ndarray A;
  minibatch_size : Z;
  rng : RandomState
}.
Arguments MkMinibatchData {A} data minibatch_size rng.
Arguments data {A} _.
Arguments minibatch_size {A} _.
Arguments rng {A} _.

Section Collaborators.
Variable B : TF.backend.
Let Tensor := TF.Tensor B.

(** The kernel: [K(X)], and [create_feature_map_func(seed)], which raises
    when the kernel has no feature mapping.  [K_raises X] is the exception
    the call [K(X)] raises, [None] when it returns [K X]; the feature map is
    a function that may raise as well. *)
Record Kernel := MkKernel {
  K : Tensor -> Tensor;
  K_raises : Tensor -> option exn;
  create_feature_map_func : Z -> result (Tensor -> result Tensor)
}.

(** The call [kern.K(X)]. *)
Definition call_K (kern : Kernel) (X : Tensor) : result Tensor :=
  match K_raises kern X with
  | Some e => Raise e
  | None => Ok (K kern X)
  end.

Record Likelihood := MkLikelihood {
  variational_expectations : Tensor -> Tensor -> Tensor -> Tensor
}.

Definition MeanFunction := Tensor -> Tensor.

(** What [svgp.py] imports from the rest of the package:
    [conditionals.conditional], the four routines of [kullback_leiblers],
    [mean_functions.Zero] and [settings.numerics.jitter_level]. *)
Record env := MkEnv {
  conditional :
    Tensor -> Tensor -> Kernel -> Tensor -> Tensor -> bool -> bool ->
    Tensor * Tensor;
  gauss_kl_white_diag : Tensor -> Tensor -> Tensor;
  gauss_kl_white : Tensor -> Tensor -> Tensor;
  gauss_kl_diag : Tensor -> Tensor -> Tensor -> Tensor;
  gauss_kl : Tensor -> Tensor -> Tensor -> Tensor;
  Zero : MeanFunction;
  jitter_level : TF.Scalar B
}.

(** Modelled from the spec: a batch yielded by a [MinibatchData] view has
    [minibatch_size] rows. *)
Definition is_batch_of (t : Tensor) (v : MinibatchData (TF.Scalar B))
  : Prop :=
  TF.dim B t 0 = minibatch_size v.

End Collaborators.

Arguments K {B} _ _.
Arguments K_raises {B} _ _.
Arguments create_feature_map_func {B} _ _.
Arguments call_K {B} _ _.
Arguments variational_expectations {B} _ _ _ _.
Arguments conditional {B} _ _ _ _ _ _ _ _.
Arguments gauss_kl_white_diag {B} _ _ _.
Arguments gauss_kl_white {B} _ _ _.
Arguments gauss_kl_diag {B} _ _ _ _.
Arguments gauss_kl {B} _ _ _ _.
Arguments Zero {B} _.
Arguments jitter_level {B} _.
Arguments is_batch_of {B} _ _.

End GPflow.

(* ===================================================================== *)
(** * gpflow/svgp.py *)
(* ===================================================================== *)

Module SVGP.
Import Py GPflow.

Section Model.
Variable B : TF.backend.
Variable G : GPflow.env B.

Let Tensor := TF.Tensor B.
Let Scalar := TF.Scalar B.
Let ndarray := Numpy.ndarray Scalar.

(** The attributes of an [SVGP] instance.  [X] and [Y] hold the minibatch
    views, [Z_] is the attribute [Z]. *)
Record model := Model {
  num_data : nat;
  X : MinibatchData Scalar;
  Y : MinibatchData Scalar;
  kern : Kernel B;
  likelihood : Likelihood B;
  mean_function : MeanFunction B;
  q_diag : bool;
  whiten : bool;
  Z_ : Param Scalar;
  num_latent : Z;
  num_inducing : nat;
  q_mu : Param Scalar;
  q_sqrt : Param Scalar;
  random_seed_for_random_features : Z
}.

(** Modelled from the spec: [GPModel.__init__] (gpflow/model.py) keeps the
    collaborators it is given; an omitted mean function is the zero
    function. *)
Definition GPModel_mean_function (mean_function : option (MeanFunction B))
  : MeanFunction B :=
  match mean_function with
  | Some f => f
  | None => Zero G
  end.

(** [num_latent or Y.shape[1]]: [None] and [0] are falsy. *)
Definition num_latent_or (num_latent : option Z) (Y : MinibatchData Scalar)
  : result Z :=
  match num_latent with
  | Some n => if (n =? 0)%Z
              then do d <- Numpy.shape_at (data Y) 1; Ok (Z.of_nat d)
              else Ok n
  | None => do d <- Numpy.shape_at (data Y) 1; Ok (Z.of_nat d)
  end.

(** [[np.eye(num_inducing) for _ in range(num_latent)]] *)
Definition eye_list (num_inducing : nat) (num_latent : Z) : list ndarray :=
  map (fun _ => Numpy.eye (TF.s0 B) (TF.s1 B) num_inducing)
      (seq 0 (Z.to_nat num_latent)).

(** [SVGP.__init__] *)
Definition __init__ (X Y : ndarray) (kern : Kernel B)
    (likelihood : Likelihood B) (Z : ndarray)
    (mean_function : option (MeanFunction B)) (num_latent : option BinNums.Z)
    (q_diag whiten : bool) (minibatch_size : option BinNums.Z)
    (random_seed_for_random_features : BinNums.Z) : result model :=
  (* sort out the X, Y into MiniBatch objects. *)
  do minibatch_size <-
    match minibatch_size with
    | None => do n <- Numpy.shape_at X 0; Ok (Z.of_nat n)
    | Some b => Ok b
    end;
  do num_data <- Numpy.shape_at X 0;
  let X := MkMinibatchData X minibatch_size (MkRandomState 0) in
  let Y := MkMinibatchData Y minibatch_size (MkRandomState 0) in
  (* init the super class, accept args *)
  let mean_function := GPModel_mean_function mean_function in
  let Z_param := MkParam Z None in
  do num_latent <- num_latent_or num_latent Y;
  do num_inducing <- Numpy.shape_at Z 0;
  (* init variational parameters *)
  do q_mu_value <-
    Numpy.zeros (TF.s0 B) [Z.of_nat num_inducing; num_latent];
  let q_mu := MkParam q_mu_value None in
  do q_sqrt <-
    (if q_diag then
       do v <- Numpy.ones (TF.s1 B) [Z.of_nat num_inducing; num_latent];
       Ok (MkParam v (Some positive))
     else
       do q_sqrt <-
         Numpy.swapaxes (Numpy.array (eye_list num_inducing num_latent)) 0 2;
       Ok (MkParam q_sqrt
             (Some (LowerTriangular (Z.of_nat num_inducing) num_latent))));
  Ok {| num_data := num_data; X := X; Y := Y; kern := kern;
        likelihood := likelihood; mean_function := mean_function;
        q_diag := q_diag; whiten := whiten; Z_ := Z_param;
        num_latent := num_latent; num_inducing := num_inducing;
        q_mu := q_mu; q_sqrt := q_sqrt;
        random_seed_for_random_features := random_seed_for_random_features |}.

(** Inside the build methods a parameter reads as its tensor. *)
Definition tensor_of (p : Param Scalar) : Tensor :=
  TF.convert_to_tensor B (value p).

(** [tf.eye(n, dtype=float_type) * settings.numerics.jitter_level] *)
Definition jitter_eye (n : Z) : Tensor :=
  TF.mul B (TF.eye B n None) (TF.constant B (jitter_level G)).

(** [build_prior_KL] *)
Definition build_prior_KL (self : model) : Tensor :=
  if whiten self then
    if q_diag self then
      gauss_kl_white_diag G (tensor_of (q_mu self)) (tensor_of (q_sqrt self))
    else
      gauss_kl_white G (tensor_of (q_mu self)) (tensor_of (q_sqrt self))
  else
    let K := TF.add B (K (kern self) (tensor_of (Z_ self)))
                      (jitter_eye (Z.of_nat (num_inducing self))) in
    if q_diag self then
      gauss_kl_diag G (tensor_of (q_mu self)) (tensor_of (q_sqrt self)) K
    else
      gauss_kl G (tensor_of (q_mu self)) (tensor_of (q_sqrt self)) K.

(** [build_predict] *)
Definition build_predict (self : model) (Xnew : Tensor) (full_cov : bool)
  : Tensor * Tensor :=
  let '(mu, var) :=
    conditional G Xnew (tensor_of (Z_ self)) (kern self)
      (tensor_of (q_mu self)) (tensor_of (q_sqrt self)) full_cov
      (whiten self) in
  (TF.add B mu (mean_function self Xnew), var).

(** The minibatch rescaling factor of [build_likelihood]. *)
Definition scale (self : model) (X_batch : Tensor) : Tensor :=
  TF.div B (TF.cast B (Z.of_nat (num_data self)))
           (TF.cast B (TF.dim B X_batch 0)).

(** [build_likelihood]; [X_batch] and [Y_batch] are what [self.X] and
    [self.Y] read as while the graph is built. *)
Definition build_likelihood (self : model) (X_batch Y_batch : Tensor)
  : Tensor :=
  (* Get prior KL. *)
  let KL := build_prior_KL self in
  (* Get conditionals *)
  let '(fmean, fvar) := build_predict self X_batch false in
  (* Get variational expectations. *)
  let var_exp :=
    variational_expectations (likelihood self) fmean fvar Y_batch in
  (* re-scale for minibatch size *)
  let scale := scale self X_batch in
  TF.sub B (TF.mul B (TF.reduce_sum B var_exp) scale) KL.

(** [tf.eye(n, dtype=float_type) * settings.numerics.jitter_level] as a
    sequence of calls. *)
Definition run_jitter_eye (n : Z) : result Tensor :=
  do I <- TF.run B (TF.Eye n None);
  TF.run B (TF.Mul I (TF.constant B (jitter_level G))).

(** [linear_weights_posterior] (the graph the [AutoFlow] wrapper builds):
    the calls in the order Python makes them, the first that raises ending
    the method.  The value is the triple of tensors the method hands to the
    session; running the session is outside the model. *)
Definition linear_weights_posterior (self : model)
  : result (Tensor * Tensor * TF.BoolTensor B) :=
  if negb (num_latent self =? 1)%Z then
    Raise (AssertionError "Only yet implemented for one latent variable GP.")
  else
  do feat_map <-
    create_feature_map_func (kern self) (random_seed_for_random_features self);
  do feats <- feat_map (tensor_of (Z_ self));
  do num_obs <- TF.shape_at B feats 0;
  do num_feats <- TF.shape_at B feats 1;
  do kernel_at_z_true <- call_K (kern self) (tensor_of (Z_ self));
  do chol_kzz_true <-
    (do jitter <- run_jitter_eye num_obs;
     do sum <- TF.run B (TF.Add kernel_at_z_true jitter);
     TF.run B (TF.Cholesky sum));
  do kernel_at_z_approx <- TF.run B (TF.Matmul feats feats false true);
  do chol_kzz_approx <-
    (do jitter <- run_jitter_eye num_obs;
     do sum <- TF.run B (TF.Add kernel_at_z_approx jitter);
     TF.run B (TF.Cholesky sum));
  (* === Mean === *)
  do u <-
    (if whiten self
     then TF.run B (TF.Matmul chol_kzz_true (tensor_of (q_mu self))
                      false false)
     else Ok (tensor_of (q_mu self)));
  do Kzzinv_u <- TF.run B (TF.CholeskySolve chol_kzz_approx u);
  do mean <- TF.run B (TF.Matmul feats Kzzinv_u true false);
  (* === Variance === *)
  do LiPhi <- TF.run B (TF.MatrixTriangularSolve chol_kzz_approx feats true);
  do R <-
    (if whiten self
     then
       do squeezed <- TF.run B (TF.Squeeze (tensor_of (q_sqrt self)));
       TF.run B (TF.Matmul chol_kzz_true squeezed false false)
     else TF.run B (TF.Squeeze (tensor_of (q_sqrt self))));
  do LitLiPhi <-
    (do transposed <- TF.run B (TF.Transpose chol_kzz_approx);
     TF.run B (TF.MatrixTriangularSolve transposed LiPhi false));
  do QsrttLiPhi <- TF.run B (TF.Matmul R LitLiPhi true false);
  do term1 <- TF.run B (TF.Matmul QsrttLiPhi QsrttLiPhi true false);
  (* term 2 *)
  do term2 <-
    (do product <- TF.run B (TF.Matmul LiPhi LiPhi true false);
     TF.run B (TF.Neg product));
  do variance <-
    (do sum <- TF.run B (TF.Add term1 term2);
     do I <- TF.run B (TF.Eye num_feats (Some num_feats));
     TF.run B (TF.Add sum I));
  Ok (mean, variance, TF.constant_bool B true).

End Model.

Arguments num_data {B} _.
Arguments X {B} _.
Arguments Y {B} _.
Arguments kern {B} _.
Arguments likelihood {B} _.
Arguments mean_function {B} _.
Arguments q_diag {B} _.
Arguments whiten {B} _.
Arguments Z_ {B} _.
Arguments num_latent {B} _.
Arguments num_inducing {B} _.
Arguments q_mu {B} _.
Arguments q_sqrt {B} _.
Arguments random_seed_for_random_features {B} _.

(** [self.kern = kern] on a model. *)
Definition with_kern {B} (self : model B) (kern : Kernel B) : model B :=
  {| num_data := num_data self; X := X self; Y := Y self; kern := kern;
     likelihood := likelihood self; mean_function := mean_function self;
     q_diag := q_diag self; whiten := whiten self; Z_ := Z_ self;
     num_latent := num_latent self; num_inducing := num_inducing self;
     q_mu := q_mu self; q_sqrt := q_sqrt self;
     random_seed_for_random_features := random_seed_for_random_features self |}.

End SVGP.

(* ===================================================================== *)
(** * The specification's formulas *)
(* ===================================================================== *)

(** The contract of KullbackLeiblerTerms and the algorithm of
    LinearWeightsPosterior, written after the specification's text, to be
    compared with what [svgp.py] builds.  The specification names the
    formulas; [operations] lists the tensor operations they are made of,
    which is what has to go through for the formulas to be computed. *)

Module Spec.
Import GPflow.

Section Formulas.
Variable B : TF.backend.
Variable G : GPflow.env B.

Let Tensor := TF.Tensor B.

(** [kl(q_mu, q_sqrt, K?, whiten, diag)]: four variants; the two whitened
    ones take no prior covariance, the two others require it. *)
Definition kl (q_mu q_sqrt : Tensor) (K : option Tensor) (whiten diag : bool)
  : option Tensor :=
  match whiten, diag, K with
  | true, true, None => Some (gauss_kl_white_diag G q_mu q_sqrt)
  | true, false, None => Some (gauss_kl_white G q_mu q_sqrt)
  | false, true, Some K => Some (gauss_kl_diag G q_mu q_sqrt K)
  | false, false, Some K => Some (gauss_kl G q_mu q_sqrt K)
  | _, _, _ => None
  end.

(** [jitter · I_n] *)
Definition jitter_I (n : Z) : Tensor :=
  TF.mul B (TF.eye B n None) (TF.constant B (jitter_level G)).

(** The prior covariance: the kernel at the inducing points plus jitter on
    the diagonal. *)
Definition prior_covariance (kern : Kernel B) (Z : Tensor) (M : BinNums.Z)
  : Tensor :=
  TF.add B (K kern Z) (jitter_I M).

Section LinearWeights.
Variable kern : Kernel B.
Variables Z q_mu q_sqrt : Tensor.
Variable whiten : bool.
(** The feature matrix [Φ] (M × F). *)
Variable Phi : Tensor.

Let M := TF.dim B Phi 0.
Let F := TF.dim B Phi 1.

(** [aᵗ · b] and [a · b] *)
Definition tmul (a b : Tensor) : Tensor := TF.matmul B a b true false.
Definition mmul (a b : Tensor) : Tensor := TF.matmul B a b false false.

Definition K_true : Tensor := TF.add B (K kern Z) (jitter_I M).
Definition L_true : Tensor := TF.cholesky B K_true.
Definition K_approx : Tensor :=
  TF.add B (TF.matmul B Phi Phi false true) (jitter_I M).
Definition L_approx : Tensor := TF.cholesky B K_approx.

Definition u : Tensor := if whiten then mmul L_true q_mu else q_mu.
Definition Kzzinv_u : Tensor := TF.cholesky_solve B L_approx u.
Definition weight_mean : Tensor := tmul Phi Kzzinv_u.

Definition LiPhi : Tensor := TF.matrix_triangular_solve B L_approx Phi true.
Definition R : Tensor :=
  if whiten then mmul L_true (TF.squeeze B q_sqrt) else TF.squeeze B q_sqrt.
Definition LitLiPhi : Tensor :=
  TF.matrix_triangular_solve B (TF.transpose B L_approx) LiPhi false.
Definition QsrttLiPhi : Tensor := tmul R LitLiPhi.

(** [QsrttLiPhiᵗ·QsrttLiPhi − LiPhiᵗ·LiPhi + I_F], the subtraction being the
    addition of the opposite. *)
Definition weight_covariance : Tensor :=
  TF.add B (TF.add B (tmul QsrttLiPhi QsrttLiPhi) (TF.neg B (tmul LiPhi LiPhi)))
           (TF.eye B F (Some F)).

(** The operations behind [jitter · I_M]. *)
Definition jitter_operations : list (TF.call Tensor) :=
  [TF.Eye M None; TF.Mul (TF.eye B M None) (TF.constant B (jitter_level G))].

(** The operations on the true kernel matrix. *)
Definition true_kernel_operations : list (TF.call Tensor) :=
  [TF.Add (K kern Z) (jitter_I M); TF.Cholesky K_true].

(** The operations the formulas above are made of, each with the operands
    it is applied to, in the order of the algorithm. *)
Definition operations : list (TF.call Tensor) :=
  jitter_operations
  ++ true_kernel_operations
  ++ [TF.Matmul Phi Phi false true]
  ++ jitter_operations
  ++ [TF.Add (TF.matmul B Phi Phi false true) (jitter_I M);
      TF.Cholesky K_approx]
  ++ (if whiten then [TF.Matmul L_true q_mu false false] else [])
  ++ [TF.CholeskySolve L_approx u; TF.Matmul Phi Kzzinv_u true false;
      TF.MatrixTriangularSolve L_approx Phi true; TF.Squeeze q_sqrt]
  ++ (if whiten
      then [TF.Matmul L_true (TF.squeeze B q_sqrt) false false] else [])
  ++ [TF.Transpose L_approx;
      TF.MatrixTriangularSolve (TF.transpose B L_approx) LiPhi false;
      TF.Matmul R LitLiPhi true false;
      TF.Matmul QsrttLiPhi QsrttLiPhi true false;
      TF.Matmul LiPhi LiPhi true false; TF.Neg (tmul LiPhi LiPhi);
      TF.Add (tmul QsrttLiPhi QsrttLiPhi) (TF.neg B (tmul LiPhi LiPhi));
      TF.Eye F (Some F);
      TF.Add (TF.add B (tmul QsrttLiPhi QsrttLiPhi)
                (TF.neg B (tmul LiPhi LiPhi)))
             (TF.eye B F (Some F))].

(** The exception that ends the algorithm, if any: the first one raised by
    [tf.shape] on the features, by the kernel or by one of the
    operations. *)
Definition failure : option Py.exn :=
  Py.first_raise
    ([TF.shape_raises B Phi 0; TF.shape_raises B Phi 1; K_raises kern Z]
     ++ map (TF.raises B) operations).

End LinearWeights.
End Formulas.

End Spec.

(* ===================================================================== *)
(** * A dense reference backend *)
(* ===================================================================== *)

(** Tensors as numpy-style arrays over a scalar type, with the textbook
    algorithms for the linear algebra.  It serves to run the model on
    concrete inputs; no statement about [SVGP] depends on it.

    The backend covers scalars and matrices: elementwise operations on
    operands of one shape or with a rank-0 operand, products,
    factorisations and solves of rank-2 operands of matching sizes.  It
    rejects every other call with [ValueError], as TensorFlow does for a
    product with an operand of rank below two. *)

Module Dense.
Import Numpy.

Record scalar_ops (F : Type) := ScalarOps {
  zero : F;
  one : F;
  plus : F -> F -> F;
  minus : F -> F -> F;
  times : F -> F -> F;
  quot : F -> F -> F;
  opp : F -> F;
  sqrt : F -> F;
  of_Z : Z -> F
}.
Arguments zero {F} _.
Arguments one {F} _.
Arguments plus {F} _ _ _.
Arguments minus {F} _ _ _.
Arguments times {F} _ _ _.
Arguments quot {F} _ _ _.
Arguments opp {F} _ _.
Arguments sqrt {F} _ _.
Arguments of_Z {F} _ _.

Section Ops.
Context {F : Type} (S : scalar_ops F).

Abbreviation tensor := (ndarray F).

Fixpoint indices (sh : list nat) : list (list nat) :=
  match sh with
  | [] => [[]]
  | d :: sh' => flat_map (fun i => map (cons i) (indices sh')) (seq 0 d)
  end.

Definition at_ (t : tensor) (idx : list nat) : F :=
  default (zero S) (get t idx).

(** The elements in row-major order. *)
Definition elements (t : tensor) : list F :=
  map (at_ t) (indices (shape t)).

Definition fresh (sh : list nat) (xs : list F) : tensor :=
  NDArray sh (c_strides sh) xs.

Definition constant (x : F) : tensor := fresh [] [x].

Definition cast (z : Z) : tensor := constant (of_Z S z).

Definition dim (t : tensor) (k : nat) : Z := Z.of_nat (nth k (shape t) 0%nat).

(** Elementwise operations; a rank-0 operand is broadcast. *)
Definition binop (op : F -> F -> F) (a b : tensor) : tensor :=
  match shape a, shape b with
  | [], _ => fresh (shape b) (map (op (at_ a [])) (elements b))
  | _, [] => fresh (shape a) (map (fun x => op x (at_ b [])) (elements a))
  | _, _ => fresh (shape a) (zip_with op (elements a) (elements b))
  end.

Definition neg (a : tensor) : tensor :=
  fresh (shape a) (map (opp S) (elements a)).

Definition rows (t : tensor) : list (list F) :=
  match shape t with
  | [r; c] => map (fun i => map (fun j => at_ t [i; j]) (seq 0 c)) (seq 0 r)
  | _ => []
  end.

Definition of_rows (r c : nat) (xs : list (list F)) : tensor :=
  fresh [r; c] (concat xs).

Definition eye (n : Z) (m : option Z) : tensor :=
  let r := Z.to_nat n in
  let c := Z.to_nat (default n m) in
  of_rows r c
    (map (fun i => map (fun j => if (i =? j)%nat then one S else zero S)
                       (seq 0 c))
         (seq 0 r)).

Definition transpose (t : tensor) : tensor :=
  NDArray (rev (shape t)) (rev (strides t)) (buffer t).

Definition dot (xs ys : list F) : F :=
  fold_left (plus S) (zip_with (times S) xs ys) (zero S).

Definition matmul (a b : tensor) (transpose_a transpose_b : bool) : tensor :=
  let a := if transpose_a then transpose a else a in
  let b := if transpose_b then transpose b else b in
  let cols_b := rows (transpose b) in
  of_rows (nth 0 (shape a) 0%nat) (nth 1 (shape b) 0%nat)
    (map (fun ra => map (dot ra) cols_b) (rows a)).

(** One row of the Cholesky factor from the rows above it. *)
Definition cholesky_row (n : nat) (Ls : list (list F)) (a : list F)
  : list F :=
  let i := length Ls in
  let cur :=
    fold_left
      (fun cur jL =>
         let '(j, Lj) := jL in
         cur ++ [quot S (minus S (nth j a (zero S)) (dot cur (take j Lj)))
                        (nth j Lj (zero S))])
      (zip (seq 0 i) Ls) [] in
  cur ++ [sqrt S (minus S (nth i a (zero S)) (dot cur cur))]
      ++ repeat (zero S) (n - i - 1).

Definition cholesky (t : tensor) : tensor :=
  let n := nth 0 (shape t) 0%nat in
  of_rows n n
    (fold_left (fun Ls a => Ls ++ [cholesky_row n Ls a]) (rows t) []).

(** Forward substitution for one right-hand side. *)
Definition solve_lower_vec (L : list (list F)) (b : list F) : list F :=
  fold_left
    (fun xs iLb =>
       let '(i, Li, bi) := iLb in
       xs ++ [quot S (minus S bi (dot xs (take i Li))) (nth i Li (zero S))])
    (zip (zip (seq 0 (length L)) L) b) [].

Definition solve_upper_vec (U : list (list F)) (b : list F) : list F :=
  rev (solve_lower_vec (rev (map (@rev F) U)) (rev b)).

Definition matrix_triangular_solve (m rhs : tensor) (lower : bool) : tensor :=
  let solve := if lower then solve_lower_vec else solve_upper_vec in
  let sols := map (solve (rows m)) (rows (transpose rhs)) in
  transpose (of_rows (nth 1 (shape rhs) 0%nat) (nth 0 (shape rhs) 0%nat) sols).

Definition cholesky_solve (chol rhs : tensor) : tensor :=
  matrix_triangular_solve (transpose chol)
    (matrix_triangular_solve chol rhs true) false.

(** Drops the axes of length one. *)
Definition squeeze (t : tensor) : tensor :=
  let keep := filter (fun ds => negb (fst ds =? 1)%nat)
                     (zip (shape t) (strides t)) in
  NDArray (map fst keep) (map snd keep) (buffer t).

Definition reduce_sum (t : tensor) : tensor :=
  constant (fold_left (plus S) (elements t) (zero S)).

Definition rejects (accepted : bool) : option Py.exn :=
  if accepted then None else Some Py.ValueError.

Definition same_shape (a b : list nat) : bool :=
  (length a =? length b)%nat
  && forallb (fun xy => (fst xy =? snd xy)%nat) (zip a b).

(** The shape of a matrix operand, transposed when asked for. *)
Definition matrix_shape (t : tensor) (transposed : bool) : option (nat * nat) :=
  match shape t with
  | [r; c] => Some (if transposed then (c, r) else (r, c))
  | _ => None
  end.

Definition elementwise_ok (a b : tensor) : bool :=
  match shape a, shape b with
  | [], _ => true
  | _, [] => true
  | sa, sb => same_shape sa sb
  end.

Definition matmul_ok (a b : tensor) (transpose_a transpose_b : bool) : bool :=
  match matrix_shape a transpose_a, matrix_shape b transpose_b with
  | Some (_, k), Some (k', _) => (k =? k')%nat
  | _, _ => false
  end.

Definition square (t : tensor) : bool :=
  match matrix_shape t false with
  | Some (r, c) => (r =? c)%nat
  | None => false
  end.

Definition solve_ok (m rhs : tensor) : bool :=
  square m && matmul_ok m rhs false false.

(** The calls the backend rejects. *)
Definition raises (c : TF.call tensor) : option Py.exn :=
  match c with
  | TF.Add a b => rejects (elementwise_ok a b)
  | TF.Mul a b => rejects (elementwise_ok a b)
  | TF.Neg _ => None
  | TF.Eye n m => rejects ((0 <=? n)%Z && (0 <=? default n m)%Z)
  | TF.Matmul a b transpose_a transpose_b =>
      rejects (matmul_ok a b transpose_a transpose_b)
  | TF.Transpose _ => None
  | TF.Cholesky a => rejects (square a)
  | TF.CholeskySolve chol rhs => rejects (solve_ok chol rhs)
  | TF.MatrixTriangularSolve m rhs _ => rejects (solve_ok m rhs)
  | TF.Squeeze _ => None
  end.

(** [tf.shape(t)[k]] needs an axis [k]. *)
Definition shape_raises (t : tensor) (k : nat) : option Py.exn :=
  rejects (k <? length (shape t))%nat.

Definition backend : TF.backend :=
  {| TF.Scalar := F;
     TF.s0 := zero S;
     TF.s1 := one S;
     TF.Tensor := tensor;
     TF.BoolTensor := bool;
     TF.convert_to_tensor := fun a => a;
     TF.constant := constant;
     TF.constant_bool := fun b => b;
     TF.cast := cast;
     TF.dim := dim;
     TF.add := binop (plus S);
     TF.sub := binop (minus S);
     TF.mul := binop (times S);
     TF.div := binop (quot S);
     TF.neg := neg;
     TF.eye := eye;
     TF.matmul := matmul;
     TF.transpose := transpose;
     TF.cholesky := cholesky;
     TF.cholesky_solve := cholesky_solve;
     TF.matrix_triangular_solve := matrix_triangular_solve;
     TF.squeeze := squeeze;
     TF.reduce_sum := reduce_sum;
     TF.raises := raises;
     TF.shape_raises := shape_raises |}.

(** The linear kernel [K(X) = X Xᵗ]; its feature map is the identity. *)
Definition linear_kernel : GPflow.Kernel backend :=
  GPflow.MkKernel backend
    (fun X : tensor => matmul X X false true)
    (fun X : tensor => raises (TF.Matmul X X false true))
    (fun _ => Py.Ok (fun X : tensor => Py.Ok X)).

(** The same covariance without a feature mapping. *)
Definition featureless_kernel : GPflow.Kernel backend :=
  GPflow.MkKernel backend
    (fun X : tensor => matmul X X false true)
    (fun X : tensor => raises (TF.Matmul X X false true))
    (fun _ => Py.Raise Py.NotImplementedError).

(** A unit-variance Gaussian likelihood, up to its additive constant. *)
Definition gaussian : GPflow.Likelihood backend :=
  GPflow.MkLikelihood backend
    (fun Fmu Fvar Y : tensor =>
       let d := binop (minus S) Y Fmu in
       binop (quot S) (neg (binop (plus S) (binop (times S) d d) Fvar))
             (cast 2)).

(** Stand-ins for the routines of [conditionals] and [kullback_leiblers]. *)
Definition env (jitter : F) : GPflow.env backend :=
  GPflow.MkEnv backend
    (fun (Xnew Z : tensor) (kern : GPflow.Kernel backend)
         (q_mu q_sqrt : tensor) (full_cov whiten : bool) =>
       let Kxz := matmul Xnew Z false true in
       (matmul Kxz q_mu false false,
        reduce_sum (binop (times S) q_sqrt q_sqrt)))
    (fun q_mu q_sqrt : tensor => reduce_sum (binop (times S) q_mu q_mu))
    (fun q_mu q_sqrt : tensor => reduce_sum (binop (times S) q_mu q_mu))
    (fun q_mu q_sqrt K : tensor =>
       reduce_sum (matmul q_mu (cholesky_solve (cholesky K) q_mu) true false))
    (fun q_mu q_sqrt K : tensor =>
       reduce_sum (matmul q_mu (cholesky_solve (cholesky K) q_mu) true false))
    (fun X : tensor => constant (zero S))
    jitter.

End Ops.

(** Binary64 scalars.  An integer converts to the nearest binary64 number,
    infinity on overflow. *)
Definition float_of_Z (z : Z) : float :=
  SF2Prim (binary_normalize prec emax z 0 false).

Definition finite_nonzero (x : float) : bool :=
  match PrimFloat.classify x with
  | PNormal | NNormal | PSubn | NSubn => true
  | _ => false
  end.

Definition float64 : scalar_ops float :=
  {| zero := 0%float; one := 1%float;
     plus := PrimFloat.add; minus := PrimFloat.sub;
     times := PrimFloat.mul; quot := PrimFloat.div;
     opp := PrimFloat.opp; sqrt := PrimFloat.sqrt;
     of_Z := float_of_Z |}.

(** Exact rational scalars; the square root is exact on squares. *)
Definition Qc_sqrt (q : Qc) : Qc :=
  Q2Qc (Z.sqrt (Qnum q) # Pos.sqrt (Qden q)).

Definition rational : scalar_ops Qc :=
  {| zero := 0%Qc; one := 1%Qc;
     plus := Qcplus; minus := Qcminus;
     times := Qcmult; quot := Qcdiv;
     opp := Qcopp; sqrt := Qc_sqrt;
     of_Z := fun z => Q2Qc (inject_Z z) |}.

End Dense.

(* ===================================================================== *)
(** * Concrete inputs *)
(* ===================================================================== *)

Module Examples.
Import Numpy GPflow.

Definition matrix {A} (r c : nat) (xs : list A) : ndarray A :=
  NDArray [r; c] (c_strides [r; c]) xs.

(** ** Binary64 *)

Definition F64 : TF.backend := Dense.backend Dense.float64.
Definition env64 : GPflow.env F64 := Dense.env Dense.float64 0x1p-20%float.

Definition X41 : ndarray float := matrix 4 1 [1; 2; 3; 4]%float.
Definition Y41 : ndarray float := matrix 4 1 [1; 0; 1; 0]%float.
Definition Z21 : ndarray float := matrix 2 1 [1; 3]%float.
(** Inducing inputs with no row and three columns. *)
Definition Z03 : ndarray float := matrix 0 3 [].
(** An empty data set. *)
Definition X01 : ndarray float := matrix 0 1 [].
Definition Y01 : ndarray float := matrix 0 1 [].

(** [SVGP(X, Y, kern, likelihood, Z, num_latent=..., q_diag=...,
    whiten=...)], the other optional arguments left at their defaults. *)
Definition svgp64 (X Y Z : ndarray float) (kern : Kernel F64)
    (num_latent : option BinNums.Z) (q_diag whiten : bool)
  : Py.result (SVGP.model F64) :=
  SVGP.__init__ F64 env64 X Y kern (Dense.gaussian Dense.float64) Z
    None num_latent q_diag whiten None 27184.

(** A model over the inducing points [Z21], written out attribute by
    attribute. *)
Definition model64 (N : nat) (X Y : ndarray float) (batch : BinNums.Z)
    (kern : Kernel F64) (num_latent : BinNums.Z) (q_mu q_sqrt : Param float)
  : SVGP.model F64 :=
  SVGP.Model F64
    N                                               (* num_data *)
    (MkMinibatchData X batch (MkRandomState 0))     (* X *)
    (MkMinibatchData Y batch (MkRandomState 0))     (* Y *)
    kern
    (Dense.gaussian Dense.float64)                  (* likelihood *)
    (Zero env64)                                    (* mean_function *)
    false                                           (* q_diag *)
    true                                            (* whiten *)
    (MkParam Z21 None)                              (* Z *)
    num_latent
    2%nat                                           (* num_inducing *)
    q_mu
    q_sqrt
    27184%Z.                                        (* random seed *)

Definition zeros21 : Param float := MkParam (matrix 2 1 [0; 0]%float) None.
Definition zeros22 : Param float :=
  MkParam (matrix 2 2 [0; 0; 0; 0]%float) None.

(** One 2×2 identity matrix, the latent index last. *)
Definition eye221 : Param float :=
  MkParam (NDArray [2; 2; 1]%nat [1; 2; 4]%nat [1; 0; 0; 1]%float)
          (Some (LowerTriangular 2 1)).

(** Two of them. *)
Definition eye222 : Param float :=
  MkParam (NDArray [2; 2; 2]%nat [1; 2; 4]%nat
             [1; 0; 0; 1; 1; 0; 0; 1]%float)
          (Some (LowerTriangular 2 2)).

(** The end-to-end scenario: X (4,1), Y (4,1), Z (2,1), full covariance,
    whitened, full batch. *)
Definition scenario64 : SVGP.model F64 :=
  model64 4 X41 Y41 4 (Dense.linear_kernel Dense.float64) 1 zeros21 eye221.

(** Two latents, a kernel without feature mapping. *)
Definition two_latents64 : SVGP.model F64 :=
  model64 4 X41 Y41 4 (Dense.featureless_kernel Dense.float64) 2 zeros22
    eye222.

(** One latent, a kernel without feature mapping. *)
Definition featureless64 : SVGP.model F64 :=
  model64 4 X41 Y41 4 (Dense.featureless_kernel Dense.float64) 1 zeros21
    eye221.

(** The model over the empty data set. *)
Definition empty64 : SVGP.model F64 :=
  model64 0 X01 Y01 0 (Dense.linear_kernel Dense.float64) 1 zeros21 eye221.





(** ** Exact rationals *)

Definition QB : TF.backend := Dense.backend Dense.rational.
Definition envQ : GPflow.env QB :=
  Dense.env Dense.rational (Q2Qc (1 # 1000000)).

Definition qc (z : BinNums.Z) : Qc := Q2Qc (inject_Z z).

Definition XQ : ndarray Qc := matrix 4 1 (map qc [1; 2; 3; 4]%Z).
Definition YQ : ndarray Qc := matrix 4 1 (map qc [1; 0; 1; 0]%Z).
Definition ZQ : ndarray Qc := matrix 2 1 (map qc [1; 3]%Z).

(** Inducing inputs whose Gram matrix [[4, 2], [2, 5]] has the rational
    Cholesky factor [[2, 0], [1, 2]]. *)
Definition ZQ22 : ndarray Qc := matrix 2 2 (map qc [2; 0; 1; 2]%Z).

Definition modelQ (Z : ndarray Qc) (q_mu : list BinNums.Z)
  : SVGP.model QB :=
  SVGP.Model QB
    4%nat                                           (* num_data *)
    (MkMinibatchData XQ 4 (MkRandomState 0))        (* X *)
    (MkMinibatchData YQ 4 (MkRandomState 0))        (* Y *)
    (Dense.linear_kernel Dense.rational)            (* kern *)
    (Dense.gaussian Dense.rational)                 (* likelihood *)
    (Zero envQ)                                     (* mean_function *)
    false                                           (* q_diag *)
    true                                            (* whiten *)
    (MkParam Z None)                                (* Z *)
    1%Z                                             (* num_latent *)
    2%nat                                           (* num_inducing *)
    (MkParam (matrix 2 1 (map qc q_mu)) None)       (* q_mu *)
    (MkParam (NDArray [2; 2; 1]%nat [1; 2; 4]%nat (map qc [1; 0; 0; 1]%Z))
             (Some (LowerTriangular 2 1)))          (* q_sqrt *)
    27184%Z.

Definition full_batchQ : SVGP.model QB := modelQ ZQ [0; 0]%Z.

(** No jitter, so that every square root below is rational. *)
Definition envQ0 : GPflow.env QB := Dense.env Dense.rational 0%Qc.
Definition exactQ : SVGP.model QB := modelQ ZQ22 [1; 2]%Z.

End Examples.

(* ===================================================================== *)
(** * The class attribute behind [_read_index] *)
(* ===================================================================== *)

(** [_read_index] is a class method: [cls.__index] (the mangled attribute
    [_Parentable__index]) is looked up along the method resolution order of
    [cls], and [cls.__index += 1] stores the incremented value on [cls]
    itself. *)

Module ClassIndex.

(** The own [_Parentable__index] attribute of each class, by class name;
    [None] when the class does not define it. *)
Definition attrs := string -> option N.

(** The class body of [Parentable]: [__index = 0]. *)
Definition initial : attrs :=
  fun c => if String.eqb c "Parentable" then Some 0%N else None.

(** [setattr(cls, '_Parentable__index', v)] *)
Definition setattr (a : attrs) (cls : string) (v : N) : attrs :=
  fun c => if String.eqb c cls then Some v else a c.

(** [getattr(cls, '_Parentable__index')] along the method resolution order
    [mro] of [cls] ([cls] first); [None] is [AttributeError]. *)
Fixpoint getattr (a : attrs) (mro : list string) : option N :=
  match mro with
  | [] => None
  | c :: mro' =>
      match a c with
      | Some v => Some v
      | None => getattr a mro'
      end
  end.

(** [_read_index(cls, obj=None)], [mro] being the method resolution order of
    [cls]. *)
Definition _read_index (mro : list string) (a : attrs)
  : option (N * attrs) :=
  match mro with
  | [] => None
  | cls :: _ =>
      index ← getattr a mro;
      current ← getattr a mro;
      Some (index, setattr a cls (current + 1)%N)
  end.

End ClassIndex.

(* ===================================================================== *)
(** * Programs without numbered explicit names *)
(* ===================================================================== *)

Module Programs.
Import Parentable.

(** The name argument of a command is omitted, empty, or carries no numeric
    prefix. *)
Definition plain_name (name : option string) : bool :=
  if truthy name
  then match prefix_number (default "" name) with
       | None => true
       | Some _ => false
       end
  else true.

Definition plain (c : cmd) : bool :=
  match c with
  | New _ name => plain_name name
  | SetName _ name => plain_name name
  | SetParent _ _ => true
  | ResetName _ => true
  end.

(** A stored name made of a digit string (in the sense of [str.isdigit]),
    a slash and a rest. *)
Definition numbered (s : string) : Prop :=
  exists a b, PyStr.isdigit a = true /\ s = (a ++ "/" ++ b)%string.

(** Every numeric prefix in the heap is below the counter. *)
Definition prefixes_below (w : world) : Prop :=
  forall r o n,
    nodes w !! r = Some o -> prefix_number (_name o) = Some n ->
    (n < index w)%N.

(** No two nodes carry the same numeric prefix. *)
Definition prefixes_distinct (w : world) : Prop :=
  forall r1 r2 o1 o2 n,
    nodes w !! r1 = Some o1 -> nodes w !! r2 = Some o2 ->
    prefix_number (_name o1) = Some n ->
    prefix_number (_name o2) = Some n ->
    r1 = r2.

(** What a command may do to the name of the node it touches: keep its
    prefix, drop it, or take the current counter value and bump it. *)
Definition renamed (w : world) (old : option string) (o' : obj) (i' : N)
  : Prop :=
  (i' = index w /\ prefix_number (_name o') = None) \/
  (i' = index w /\ exists s, old = Some s /\
                             prefix_number (_name o') = prefix_number s) \/
  (i' = (index w + 1)%N /\ prefix_number (_name o') = Some (index w)).

(** Runs the commands in order. *)
Definition exec_all (cs : list cmd) (w : world) : world :=
  fold_left (fun w c => exec c w) cs w.

End Programs.

(* ===================================================================== *)
(** * Binary64 classes *)
(* ===================================================================== *)

Module Float64.

(** Plus or minus infinity. *)
Definition infinite (x : float) : bool :=
  match PrimFloat.classify x with
  | PInf | NInf => true
  | _ => false
  end.

(** The single element of a rank-0 tensor of the dense backend. *)
Definition item (t : Numpy.ndarray float) : float :=
  Dense.at_ Dense.float64 t [].

End Float64.

(* ===================================================================== *)
(** * Proof steps *)
(* ===================================================================== *)

(** The outcome a nest of matches on outcomes looks at first. *)
Ltac first_scrutinee t :=
  lazymatch t with
  | match ?x with Some _ => _ | None => _ end => first_scrutinee x
  | _ => t
  end.

(* ===================================================================== *)
(** * Facts about Python strings *)
(* ===================================================================== *)

Section PyStrFacts.
Import PyStr.

Lemma all_digits_string_of_uint (d : Decimal.uint) :
  all_digits (NilEmpty.string_of_uint d) = true.
Proof. induction d; simpl; auto. Qed.

Lemma to_uint_nonnil (n : N) : N.to_uint n <> Decimal.Nil.
Proof.
  destruct n as [|p]; simpl; [discriminate|].
  apply DecimalPos.Unsigned.to_uint_nonnil.
Qed.

Lemma str_of_N_unfold (n : N) :
  str_of_N n = NilEmpty.string_of_uint (N.to_uint n).
Proof.
  unfold str_of_N, NilZero.string_of_uint.
  pose proof (to_uint_nonnil n) as H.
  destruct (N.to_uint n); congruence.
Qed.

Lemma all_digits_str_of_N (n : N) : all_digits (str_of_N n) = true.
Proof. rewrite str_of_N_unfold. apply all_digits_string_of_uint. Qed.

Lemma str_of_N_nonempty (n : N) : str_of_N n <> "".
Proof.
  rewrite str_of_N_unfold. pose proof (to_uint_nonnil n) as H.
  destruct (N.to_uint n); simpl; congruence.
Qed.

Lemma isdigit_str_of_N (n : N) : isdigit (str_of_N n) = true.
Proof.
  pose proof (str_of_N_nonempty n) as Hne.
  pose proof (all_digits_str_of_N n) as Hd.
  unfold isdigit. destruct (str_of_N n); congruence.
Qed.

(** Reading back the decimal text of [n] gives [n]: distinct indices have
    distinct texts. *)
Lemma N_of_str_of_N (n : N) : N_of_str (str_of_N n) = Some n.
Proof.
  unfold N_of_str, str_of_N.
  rewrite NilZero.usu by apply to_uint_nonnil.
  simpl. now rewrite DecimalN.Unsigned.of_to.
Qed.

Lemma str_of_N_inj (n m : N) : str_of_N n = str_of_N m -> n = m.
Proof.
  intros H. apply (f_equal N_of_str) in H.
  rewrite !N_of_str_of_N in H. congruence.
Qed.

(** A digit string holds no slash, so the first slash of
    [digits ++ "/" ++ rest] is the separator. *)
Lemma cut_slash_digits (a b : string) :
  all_digits a = true -> cut_slash (a ++ String "/" b)%string = (a, Some b).
Proof.
  induction a as [|c a IH]; simpl; intros H; [reflexivity|].
  apply andb_prop in H as [Hc Ha].
  destruct (Ascii.eqb_spec c "/") as [->|_]; [discriminate Hc|].
  now rewrite (IH Ha).
Qed.

Lemma split_format (i : N) (s : string) :
  split_slash_1 (format_index_name i s) = [str_of_N i; s].
Proof.
  unfold split_slash_1, format_index_name.
  change ("/" ++ s)%string with (String "/" s).
  now rewrite cut_slash_digits by apply all_digits_str_of_N.
Qed.

Lemma length_append (a b : string) :
  String.length (a ++ b)%string = (String.length a + String.length b)%nat.
Proof. induction a; simpl; auto. Qed.

Lemma format_neq_suffix (i : N) (s : string) : format_index_name i s <> s.
Proof.
  intros H. apply (f_equal String.length) in H.
  unfold format_index_name in H. rewrite !length_append in H.
  simpl in H. lia.
Qed.

End PyStrFacts.

(* ===================================================================== *)
(** * The naming tree *)
(* ===================================================================== *)

Section ParentableFacts.
Import PyStr Parentable.

Lemma define_name_falsy (cls : string) (nm : option string) (i : N) :
  truthy nm = false ->
  _define_name cls nm i = (format_index_name i cls, (i + 1)%N).
Proof. intros H. unfold _define_name. now rewrite H. Qed.

Lemma define_name_truthy (cls : string) (nm : option string) (i : N) :
  truthy nm = true ->
  exists s, nm = Some s /\ s <> "" /\ _define_name cls nm i = (s, i).
Proof.
  intros H. unfold _define_name. rewrite H.
  destruct nm as [[|c s]|]; try discriminate.
  exists (String c s). repeat split. discriminate.
Qed.

Lemma name_of_generated (o : obj) (i : N) :
  _name o = format_index_name i (cls_name o) -> name o = cls_name o.
Proof.
  intros H. unfold name. rewrite H, split_format. simpl.
  now rewrite isdigit_str_of_N.
Qed.

Lemma prefix_number_format (i : N) (s : string) :
  prefix_number (format_index_name i s) = Some i.
Proof.
  unfold prefix_number. rewrite split_format, isdigit_str_of_N.
  apply N_of_str_of_N.
Qed.

Lemma reset_name_generated (o : obj) (i idx : N) :
  _name o = format_index_name i (cls_name o) ->
  _reset_name o idx =
    ({| cls_name := cls_name o; _parent := _parent o;
        _name := format_index_name idx (cls_name o) |}, (idx + 1)%N).
Proof.
  intros H. unfold _reset_name, hidden_name.
  rewrite (name_of_generated o i H), H.
  destruct (String.eqb_spec (format_index_name i (cls_name o)) (cls_name o))
    as [E|_]; [now apply format_neq_suffix in E|].
  reflexivity.
Qed.

(** The counter never goes back. *)
Lemma define_name_mono cls nm i :
  (i <= snd (_define_name cls nm i))%N.
Proof.
  unfold _define_name. destruct (truthy nm); simpl; lia.
Qed.

Lemma reset_name_mono o i : (i <= snd (_reset_name o i))%N.
Proof.
  unfold _reset_name. destruct (String.eqb _ _); simpl; lia.
Qed.

Lemma exec_index_mono (c : cmd) (w : world) :
  (index w <= index (exec c w))%N.
Proof.
  destruct c as [cls nm|self nm|self p|self]; simpl; unfold update.
  - unfold __init__, bind. pose proof (define_name_mono cls nm (index w)).
    destruct (_define_name cls nm (index w)); simpl in *. lia.
  - destruct (nodes w !! self) as [o|]; [|lia].
    unfold set_name, bind.
    pose proof (define_name_mono (cls_name o) nm (index w)).
    destruct (_define_name (cls_name o) nm (index w)); simpl in *. lia.
  - destruct (nodes w !! self) as [o|]; simpl; lia.
  - destruct (nodes w !! self) as [o|]; [|lia].
    pose proof (reset_name_mono o (index w)).
    destruct (_reset_name o (index w)); simpl in *. lia.
Qed.

Lemma exec_new_falsy (cls : string) (nm : option string) (w : world) :
  truthy nm = false ->
  exec (New cls nm) w =
    World (index w + 1)
          (nodes w ++ [Obj cls None (format_index_name (index w) cls)]).
Proof.
  intros H. simpl. unfold __init__, bind.
  now rewrite define_name_falsy.
Qed.

Lemma prefix_number_zip (ns : list N) (cls : list string) :
  length ns = length cls ->
  map prefix_number (zip_with format_index_name ns cls) = map Some ns.
Proof.
  revert cls. induction ns as [|n ns IH]; intros [|c cls] Hlen;
    try discriminate Hlen; [reflexivity|].
  cbn. rewrite prefix_number_format. f_equal. apply IH. now injection Hlen.
Qed.

(** What [run] logs: one hidden name [n/Class] for each creation without a
    name, in order, the numbers being counter values taken between the
    initial and the final counter, in strictly increasing order. *)
Lemma run_log_sorted (cs : list cmd) :
  forall w, let '(w', log) := run cs w in
    (index w <= index w')%N /\
    exists ns : list N,
      length ns = length (unnamed_classes cs) /\
      log = zip_with format_index_name ns (unnamed_classes cs) /\
      Forall (fun n => (index w <= n < index w')%N) ns /\
      StronglySorted N.lt ns.
Proof.
  induction cs as [|c cs IH]; intros w.
  - simpl. split; [lia|]. exists []. repeat split; constructor.
  - cbn [run unnamed_classes]. specialize (IH (exec c w)).
    pose proof (exec_index_mono c w) as Hm.
    destruct (run cs (exec c w)) as [w2 log].
    destruct IH as [Hle (ns & Hlen & Hlog & Hall & Hsort)].
    split; [lia|].
    assert (Hrest : exists ns0 : list N,
               length ns0 = length (unnamed_classes cs) /\
               log = zip_with format_index_name ns0 (unnamed_classes cs) /\
               Forall (fun n => (index w <= n < index w2)%N) ns0 /\
               StronglySorted N.lt ns0).
    { exists ns. repeat split; auto.
      eapply Forall_impl; [exact Hall|]. simpl. intros; lia. }
    destruct c as [cls nm| | |]; try exact Hrest.
    destruct (truthy nm) eqn:Ht; [exact Hrest|].
    rewrite exec_new_falsy in * by assumption. cbn [nodes index] in *.
    rewrite lookup_app_r by lia. rewrite Nat.sub_diag.
    exists (index w :: ns). repeat split.
    + cbn. now f_equal.
    + cbn. now f_equal.
    + constructor; [lia|].
      eapply Forall_impl; [exact Hall|]. simpl. intros; lia.
    + constructor; [assumption|].
      eapply Forall_impl; [exact Hall|]. simpl. intros; lia.
Qed.

End ParentableFacts.

(* ===================================================================== *)
(** * numpy arrays: indexing *)
(* ===================================================================== *)

Section NumpyFacts.
Import Py Numpy.
Context {A : Type}.

(** Position [l * n + k] of the concatenation of blocks of length [n] is
    position [k] of block [l]. *)
Lemma lookup_concat_uniform (n : nat) (xss : list (list A)) :
  Forall (fun xs => length xs = n) xss ->
  forall l k, (k < n)%nat ->
    concat xss !! (l * n + k)%nat = xss !! l ≫= (fun xs => xs !! k).
Proof.
  induction 1 as [|xs xss Hxs _ IH]; intros l k Hk; [reflexivity|].
  simpl concat. destruct l as [|l]; simpl.
  - rewrite lookup_app_l by lia. reflexivity.
  - rewrite lookup_app_r by lia.
    replace (n + l * n + k - length xs)%nat with (l * n + k)%nat by lia.
    now apply IH.
Qed.

Lemma lookup_map_seq {C} (h : nat -> C) (n i : nat) :
  (i < n)%nat -> map h (seq 0 n) !! i = Some (h i).
Proof.
  intros Hi. change (map h (seq 0 n)) with (h <$> seq 0 n).
  rewrite list_lookup_fmap, lookup_seq_lt by assumption. reflexivity.
Qed.

(** Row [i], column [j] of a table laid out row by row. *)
Lemma lookup_table (f : nat -> nat -> A) (n m i j : nat) :
  (i < n)%nat -> (j < m)%nat ->
  flat_map (fun i => map (f i) (seq 0 m)) (seq 0 n) !! (i * m + j)%nat
  = Some (f i j).
Proof.
  intros Hi Hj. rewrite flat_map_concat_map.
  rewrite (lookup_concat_uniform m) by
    (try assumption; apply Forall_forall; intros xs Hin;
     apply list_elem_of_In, in_map_iff in Hin as (k & <- & _);
     now rewrite length_map, length_seq).
  rewrite lookup_map_seq by assumption. simpl.
  now apply lookup_map_seq.
Qed.

Lemma length_table (f : nat -> nat -> A) (n m : nat) :
  length (flat_map (fun i => map (f i) (seq 0 m)) (seq 0 n)) = (n * m)%nat.
Proof.
  induction n as [|n IH].
  - reflexivity.
  - rewrite seq_S, flat_map_app, length_app, IH. simpl.
    rewrite length_app, length_map, length_seq. simpl. lia.
Qed.

Lemma buffer_eye (zero one : A) (n i j : nat) :
  (i < n)%nat -> (j < n)%nat ->
  buffer (eye zero one n) !! (i * n + j)%nat
  = Some (if (i =? j)%nat then one else zero).
Proof.
  intros Hi Hj. unfold eye. cbn [buffer].
  now apply (lookup_table (fun i j => if (i =? j)%nat then one else zero)).
Qed.

Lemma get_eye (zero one : A) (n i j : nat) :
  (i < n)%nat -> (j < n)%nat ->
  get (eye zero one n) [i; j] = Some (if (i =? j)%nat then one else zero).
Proof.
  intros Hi Hj. unfold get, eye. simpl.
  apply Nat.ltb_lt in Hi as Hi'. apply Nat.ltb_lt in Hj as Hj'.
  rewrite Hi', Hj'. simpl.
  match goal with
  | |- _ !! ?k = _ => replace k with (i * n + j)%nat by lia
  end.
  now apply (lookup_table (fun i j => if (i =? j)%nat then one else zero)).
Qed.

Lemma lookup_repeat (v : A) (n i : nat) :
  (i < n)%nat -> repeat v n !! i = Some v.
Proof.
  revert i. induction n as [|n IH]; intros [|i] Hi; simpl; try lia; auto.
  apply IH. lia.
Qed.

Lemma get_full (v : A) (r c i j : nat) :
  (i < r)%nat -> (j < c)%nat -> get (full v [r; c]) [i; j] = Some v.
Proof.
  intros Hi Hj. unfold get, full. simpl.
  apply Nat.ltb_lt in Hi as Hi'. apply Nat.ltb_lt in Hj as Hj'.
  rewrite Hi', Hj'. simpl.
  apply lookup_repeat. nia.
Qed.

Lemma filled_ok (v : A) (r : nat) (c : Z) :
  (0 <= c)%Z ->
  filled v [Z.of_nat r; c] = Ok (full v [r; Z.to_nat c]).
Proof.
  intros Hc. unfold filled. simpl.
  replace (0 <=? Z.of_nat r)%Z with true by (symmetry; apply Z.leb_le; lia).
  replace (0 <=? c)%Z with true by (symmetry; now apply Z.leb_le).
  simpl. now rewrite Nat2Z.id.
Qed.

Lemma filled_negative (v : A) (r : nat) (c : Z) :
  (c < 0)%Z -> filled v [Z.of_nat r; c] = Raise ValueError.
Proof.
  intros Hc. unfold filled. simpl.
  replace (0 <=? c)%Z with false by (symmetry; apply Z.leb_gt; lia).
  now rewrite andb_false_r.
Qed.

End NumpyFacts.

(* ===================================================================== *)
(** * The constructor *)
(* ===================================================================== *)

Section InitFacts.
Import Py Numpy GPflow.
Variable B : TF.backend.
Variable G : GPflow.env B.

Lemma length_eye_list (M : nat) (L : Z) :
  length (SVGP.eye_list B M L) = Z.to_nat L.
Proof. unfold SVGP.eye_list. now rewrite length_map, length_seq. Qed.

(** With no latent there is nothing to stack: the array is 1-d and has no
    axis 2. *)
Lemma swapaxes_eye_list_none (M : nat) (L : Z) :
  (L <= 0)%Z ->
  swapaxes (array (SVGP.eye_list B M L)) 0 2 = Raise AxisError.
Proof.
  intros HL. unfold SVGP.eye_list.
  replace (Z.to_nat L) with 0%nat by lia. reflexivity.
Qed.

(** The stack of [L] identity matrices after [swapaxes(0, 2)]: the latent
    index is the last axis. *)
Lemma swapaxes_eye_list (M : nat) (L : Z) :
  (1 <= L)%Z ->
  exists a,
    swapaxes (array (SVGP.eye_list B M L)) 0 2 = Ok a /\
    shape a = [M; M; Z.to_nat L] /\
    forall i j l, (i < M)%nat -> (j < M)%nat -> (l < Z.to_nat L)%nat ->
      get a [i; j; l] = Some (if (i =? j)%nat then TF.s1 B else TF.s0 B).
Proof.
  intros HL.
  pose proof (length_eye_list M L) as Hlen.
  assert (Hbuf : forall l k, (l < Z.to_nat L)%nat -> (k < M * M)%nat ->
            concat (map buffer (SVGP.eye_list B M L)) !! (l * (M * M) + k)%nat
            = buffer (eye (TF.s0 B) (TF.s1 B) M) !! k).
  { intros l k Hl Hk.
    rewrite (lookup_concat_uniform (M * M)); try assumption.
    - unfold SVGP.eye_list. rewrite map_map.
      rewrite lookup_map_seq by assumption. reflexivity.
    - apply Forall_forall. intros xs Hin.
      apply list_elem_of_In, in_map_iff in Hin as (a & <- & Ha).
      unfold SVGP.eye_list in Ha. apply in_map_iff in Ha as (? & <- & _).
      apply length_table. }
  unfold array. destruct (SVGP.eye_list B M L) as [|a0 items] eqn:E.
  { simpl in Hlen. lia. }
  assert (Ha0 : shape a0 = [M; M]).
  { unfold SVGP.eye_list in E. destruct (Z.to_nat L); [discriminate|].
    simpl in E. now inversion E. }
  rewrite Ha0, Hlen. eexists. split; [reflexivity|]. split; [reflexivity|].
  intros i j l Hi Hj Hl. unfold get. cbn [shape strides buffer].
  unfold swap. simpl.
  apply Nat.ltb_lt in Hi as Hi'. apply Nat.ltb_lt in Hj as Hj'.
  apply Nat.ltb_lt in Hl as Hl'. rewrite Hi', Hj', Hl'. simpl.
  match goal with
  | |- _ !! ?k = _ =>
      replace k with (l * (M * M) + (j * M + i))%nat by lia
  end.
  rewrite Hbuf by (try assumption; nia).
  rewrite buffer_eye by assumption. now rewrite Nat.eqb_sym.
Qed.

(** What a successful construction stores. *)
Lemma init_inv X Y kern lik Z mf nl qd wh mb seed m :
  SVGP.__init__ B G X Y kern lik Z mf nl qd wh mb seed = Ok m ->
  exists (N M : nat) (bs L : BinNums.Z),
    shape X !! 0%nat = Some N /\
    shape Z !! 0%nat = Some M /\
    bs = default (Z.of_nat N) mb /\
    SVGP.num_latent_or B nl (MkMinibatchData Y bs (MkRandomState 0)) = Ok L /\
    (0 <= L)%Z /\
    SVGP.num_data m = N /\
    SVGP.X m = MkMinibatchData X bs (MkRandomState 0) /\
    SVGP.Y m = MkMinibatchData Y bs (MkRandomState 0) /\
    SVGP.kern m = kern /\
    SVGP.likelihood m = lik /\
    SVGP.mean_function m = SVGP.GPModel_mean_function B G mf /\
    SVGP.q_diag m = qd /\
    SVGP.whiten m = wh /\
    SVGP.Z_ m = MkParam Z None /\
    SVGP.num_latent m = L /\
    SVGP.num_inducing m = M /\
    SVGP.q_mu m = MkParam (full (TF.s0 B) [M; Z.to_nat L]) None /\
    SVGP.random_seed_for_random_features m = seed /\
    (if qd
     then SVGP.q_sqrt m
          = MkParam (full (TF.s1 B) [M; Z.to_nat L]) (Some positive)
     else (1 <= L)%Z /\
          Ok (value (SVGP.q_sqrt m))
            = swapaxes (array (SVGP.eye_list B M L)) 0 2 /\
          transform (SVGP.q_sqrt m)
            = Some (LowerTriangular (Z.of_nat M) L)).
Proof.
  unfold SVGP.__init__, shape_at. intros H.
  destruct (shape X !! 0%nat) as [N|] eqn:EX;
    [|destruct mb; discriminate H].
  assert (Hmb : (match mb with
                 | None => do n <- Ok N; Ok (Z.of_nat n)
                 | Some b => Ok b
                 end) = Ok (default (Z.of_nat N) mb)) by now destruct mb.
  rewrite Hmb in H. cbn [bind] in H.
  destruct (SVGP.num_latent_or B nl _) as [L|] eqn:EL; [|discriminate H].
  cbn [bind] in H.
  destruct (shape Z !! 0%nat) as [M|] eqn:EZ; [|discriminate H].
  cbn [bind] in H. unfold zeros, ones in H.
  destruct (Z_lt_le_dec L 0) as [Hneg|Hpos].
  { rewrite filled_negative in H by assumption. discriminate H. }
  rewrite filled_ok in H by assumption. cbn [bind] in H.
  exists N, M, (default (Z.of_nat N) mb), L.
  destruct qd.
  - rewrite filled_ok in H by assumption. cbn [bind] in H.
    injection H as <-. repeat split; auto.
  - destruct (Z_lt_le_dec L 1) as [H0|H1].
    { rewrite swapaxes_eye_list_none in H by lia. discriminate H. }
    destruct (swapaxes_eye_list M L H1) as (a & Ha & _).
    rewrite Ha in H. cbn [bind] in H.
    injection H as <-. repeat split; auto.
Qed.

(** Construction succeeds as soon as the shape tuples can be indexed and the
    number of latents allows the arrays to be built. *)
Lemma init_ok X Y kern lik Z mf nl (qd : bool) wh mb seed (N M : nat)
    (L : BinNums.Z) :
  shape X !! 0%nat = Some N ->
  shape Z !! 0%nat = Some M ->
  SVGP.num_latent_or B nl
    (MkMinibatchData Y (default (Z.of_nat N) mb) (MkRandomState 0)) = Ok L ->
  ((if qd then 0 else 1) <= L)%Z ->
  exists m, SVGP.__init__ B G X Y kern lik Z mf nl qd wh mb seed = Ok m.
Proof.
  intros EX EZ EL HL.
  unfold SVGP.__init__, shape_at. rewrite EX.
  assert (Hmb : (match mb with
                 | None => do n <- Ok N; Ok (Z.of_nat n)
                 | Some b => Ok b
                 end) = Ok (default (Z.of_nat N) mb)) by now destruct mb.
  rewrite Hmb. cbn [bind]. rewrite EL. cbn [bind]. rewrite EZ. cbn [bind].
  unfold zeros, ones.
  rewrite filled_ok by (destruct qd; lia). cbn [bind].
  destruct qd.
  - rewrite filled_ok by lia. cbn [bind]. eauto.
  - destruct (swapaxes_eye_list M L HL) as (a & Ha & _).
    rewrite Ha. cbn [bind]. eauto.
Qed.

(** The constructor returns exactly when [X] and [Z] have a first axis and
    the number of latents can be read and is large enough; nothing else about
    the shapes is looked at. *)
Lemma init_returns_iff X Y kern lik Z mf nl (qd : bool) wh mb seed :
  (exists m, SVGP.__init__ B G X Y kern lik Z mf nl qd wh mb seed = Ok m)
  <->
  (exists (N M : nat) (L : BinNums.Z),
     shape X !! 0%nat = Some N /\
     shape Z !! 0%nat = Some M /\
     SVGP.num_latent_or B nl
       (MkMinibatchData Y (default (Z.of_nat N) mb) (MkRandomState 0))
     = Ok L /\
     ((if qd then 0 else 1) <= L)%Z).
Proof.
  split.
  - intros [m H]. apply init_inv in H
      as (N & M & bs & L & EX & EZ & -> & EL & HL & _ & _ & _ & _ & _ & _
          & Hqd & _ & _ & _ & _ & _ & _ & Hsq).
    exists N, M, L. repeat split; try assumption.
    destruct qd; [assumption | apply Hsq].
  - intros (N & M & L & EX & EZ & EL & HL).
    now apply (init_ok _ _ _ _ _ _ _ _ _ _ _ N M L).
Qed.

End InitFacts.

(* ===================================================================== *)
(** * The reference backends *)
(* ===================================================================== *)

(** Rational division is exact on every non-zero count. *)
Lemma rational_exact_division :
  TF.exact_division_on Examples.QB (fun z => z <> 0%Z).
Proof.
  intros z Hz. cbn. unfold Dense.binop, Dense.cast, Dense.constant,
    Dense.fresh, Dense.elements, Dense.at_, Numpy.get. cbn.
  f_equal. f_equal.
  apply Qcmult_inv_r.
  intros E. apply Q2Qc_eq_iff in E.
  unfold Qeq in E. simpl in E. lia.
Qed.

(** A finite binary64 number divided by itself: the quotient of the
    mantissas is exact. *)
Lemma SF64div_self (s : bool) (m : positive) (e : Z) :
  SF64div (S754_finite s m e) (S754_finite s m e) = Prim2SF 1%float.
Proof.
  unfold SF64div, SFdiv, SFdiv_core_binary.
  rewrite !Z.sub_diag.
  change (Z.min (fexp prec emax 0) 0) with (-53)%Z.
  change (0 - -53)%Z with 53%Z. cbv iota beta.
  rewrite Z.shiftl_mul_pow2 by lia.
  assert (H : Z.div_eucl (Z.pos m * 2 ^ 53) (Z.pos m) = ((2 ^ 53)%Z, 0%Z)).
  { pose proof (Z.div_mul (2 ^ 53) (Z.pos m) ltac:(lia)) as Hq.
    pose proof (Z.mod_mul (2 ^ 53) (Z.pos m) ltac:(lia)) as Hr.
    rewrite Z.mul_comm. unfold Z.div, Z.modulo in Hq, Hr.
    destruct (Z.div_eucl (2 ^ 53 * Z.pos m) (Z.pos m)) as [q r].
    now subst. }
  rewrite H.
  assert (Hl : new_location (Z.pos m) 0 = loc_Exact).
  { unfold new_location, new_location_even, new_location_odd.
    destruct (Z.even (Z.pos m)); reflexivity. }
  rewrite Hl, xorb_nilpotent.
  vm_compute. reflexivity.
Qed.

Lemma float_div_self (x : float) :
  Dense.finite_nonzero x = true -> PrimFloat.div x x = 1%float.
Proof.
  intros H. apply Prim2SF_inj. rewrite div_spec.
  unfold Dense.finite_nonzero in H. rewrite classify_spec in H.
  destruct (Prim2SF x) as [[|]|[|]| |s m e]; try discriminate H.
  apply SF64div_self.
Qed.

(** Binary64 division is exact on every count that converts to a finite
    non-zero number. *)
Lemma float64_exact_division :
  TF.exact_division_on Examples.F64
    (fun z => Dense.finite_nonzero (Dense.float_of_Z z) = true).
Proof.
  intros z Hz. cbn. unfold Dense.binop, Dense.cast, Dense.constant,
    Dense.fresh, Dense.elements, Dense.at_, Numpy.get. cbn.
  f_equal. f_equal.
  now apply float_div_self.
Qed.

(** Binary64 division of zero by zero is not a number. *)
Lemma float64_zero_by_zero :
  PrimFloat.is_nan (PrimFloat.div (Dense.float_of_Z 0) (Dense.float_of_Z 0))
  = true.
Proof. reflexivity. Qed.

(* ===================================================================== *)
(** * The model: statements *)
(* ===================================================================== *)

Section SVGPFacts.
Import Py Numpy GPflow.
Variable B : TF.backend.
Variable G : GPflow.env B.

Lemma scale_full_batch (m : SVGP.model B) (X_batch : TF.Tensor B) :
  is_batch_of X_batch (SVGP.X m) ->
  minibatch_size (SVGP.X m) = Z.of_nat (SVGP.num_data m) ->
  SVGP.scale B m X_batch =
    TF.div B (TF.cast B (Z.of_nat (SVGP.num_data m)))
             (TF.cast B (Z.of_nat (SVGP.num_data m))).
Proof.
  unfold is_batch_of, SVGP.scale. intros -> ->. reflexivity.
Qed.

End SVGPFacts.

Section LinearWeightsFacts.
Import Py GPflow.
Variable B : TF.backend.
Variable G : GPflow.env B.

(** Once the feature matrix is there, [linear_weights_posterior] ends with
    the first exception of the sequence [Spec.failure] goes through, and
    returns the formulas of the specification when there is none. *)
Lemma linear_weights_posterior_outcome (m : SVGP.model B)
    (feat_map : TF.Tensor B -> result (TF.Tensor B)) (Phi : TF.Tensor B) :
  SVGP.num_latent m = 1%Z ->
  create_feature_map_func (SVGP.kern m)
    (SVGP.random_seed_for_random_features m) = Ok feat_map ->
  feat_map (SVGP.tensor_of B (SVGP.Z_ m)) = Ok Phi ->
  SVGP.linear_weights_posterior B G m =
    match Spec.failure B G (SVGP.kern m) (SVGP.tensor_of B (SVGP.Z_ m))
            (SVGP.tensor_of B (SVGP.q_mu m))
            (SVGP.tensor_of B (SVGP.q_sqrt m)) (SVGP.whiten m) Phi with
    | Some e => Raise e
    | None =>
        Ok (Spec.weight_mean B G (SVGP.kern m)
              (SVGP.tensor_of B (SVGP.Z_ m))
              (SVGP.tensor_of B (SVGP.q_mu m)) (SVGP.whiten m) Phi,
            Spec.weight_covariance B G (SVGP.kern m)
              (SVGP.tensor_of B (SVGP.Z_ m))
              (SVGP.tensor_of B (SVGP.q_sqrt m)) (SVGP.whiten m) Phi,
            TF.constant_bool B true)
    end.
Proof.
  intros HL HF HPhi. unfold SVGP.linear_weights_posterior.
  rewrite HL, HF. cbn [negb Z.eqb Pos.eqb bind]. rewrite HPhi.
  generalize (SVGP.tensor_of B (SVGP.Z_ m)) (SVGP.tensor_of B (SVGP.q_mu m))
    (SVGP.tensor_of B (SVGP.q_sqrt m)) (SVGP.kern m).
  intros Z q_mu q_sqrt kern.
  destruct (SVGP.whiten m);
    cbv beta iota zeta delta
      [bind first_raise app map call_K TF.run TF.value TF.shape_at
       SVGP.run_jitter_eye
       Spec.failure Spec.operations Spec.jitter_operations
       Spec.true_kernel_operations Spec.jitter_I
       Spec.weight_mean Spec.weight_covariance Spec.QsrttLiPhi
       Spec.LitLiPhi Spec.R Spec.LiPhi Spec.Kzzinv_u Spec.u Spec.L_approx
       Spec.K_approx Spec.L_true Spec.K_true Spec.tmul Spec.mmul];
    repeat
      match goal with
      | |- _ = match ?x with Some _ => _ | None => _ end =>
          let c := first_scrutinee x in
          destruct c; [reflexivity|]; cbv beta iota
      end;
    reflexivity.
Qed.

End LinearWeightsFacts.

(** C1 (as the code has it).  [build_likelihood] is
    [reduce_sum(variational_expectations(fmean, fvar, Y_batch)) * scale - KL]
    with [(fmean, fvar) = build_predict(X_batch, full_cov=False)],
    [scale = num_data / rows(X_batch)] and [KL = build_prior_KL()], the KL
    term outside the product.  An omitted [minibatch_size] is [num_data].
    When [minibatch_size] equals [num_data], the batch has that many rows
    and [num_data] is a count on which division is exact (any non-zero count
    in exact arithmetic, any count with a finite non-zero image in
    binary64), the factor is 1. *)
Theorem build_likelihood_rescaled_elbo (B : TF.backend) (G : GPflow.env B)
    (m : SVGP.model B) (X_batch Y_batch : TF.Tensor B) :
  SVGP.build_likelihood B G m X_batch Y_batch =
    TF.sub B
      (TF.mul B
         (TF.reduce_sum B
            (GPflow.variational_expectations (SVGP.likelihood m)
               (fst (SVGP.build_predict B G m X_batch false))
               (snd (SVGP.build_predict B G m X_batch false)) Y_batch))
         (TF.div B (TF.cast B (Z.of_nat (SVGP.num_data m)))
                   (TF.cast B (TF.dim B X_batch 0))))
      (SVGP.build_prior_KL B G m)
  /\ (forall X Y kern lik Z mf nl qd wh seed m',
        SVGP.__init__ B G X Y kern lik Z mf nl qd wh None seed = Py.Ok m' ->
        GPflow.minibatch_size (SVGP.X m') = Z.of_nat (SVGP.num_data m'))
  /\ (forall ok : Z -> Prop,
      TF.exact_division_on B ok ->
      ok (Z.of_nat (SVGP.num_data m)) ->
      GPflow.is_batch_of X_batch (SVGP.X m) ->
      GPflow.minibatch_size (SVGP.X m) = Z.of_nat (SVGP.num_data m) ->
      SVGP.scale B m X_batch = TF.cast B 1).
Proof.
  split; [|split].
  - unfold SVGP.build_likelihood.
    destruct (SVGP.build_predict B G m X_batch false) as [fmean fvar].
    reflexivity.
  - intros X Y kern lik Z mf nl qd wh seed m' H.
    apply init_inv in H as (N & M & bs & L & _ & _ & -> & _ & _ & HN & HX & _).
    rewrite HX, HN. reflexivity.
  - intros ok Hdiv Hok Hb Hmb.
    rewrite scale_full_batch by assumption.
    now apply Hdiv.
Qed.

Lemma build_likelihood_rescaled_elbo_witness :
  SVGP.scale Examples.F64 Examples.scenario64
    (TF.convert_to_tensor Examples.F64 Examples.X41)
  = TF.cast Examples.F64 1
  /\ SVGP.scale Examples.QB Examples.full_batchQ
       (TF.convert_to_tensor Examples.QB Examples.XQ)
     = TF.cast Examples.QB 1.
Proof.
  split.
  - apply (proj2 (proj2 (build_likelihood_rescaled_elbo Examples.F64
             Examples.env64 Examples.scenario64
             (TF.convert_to_tensor Examples.F64 Examples.X41)
             (TF.convert_to_tensor Examples.F64 Examples.Y41)))
           (fun z => Dense.finite_nonzero (Dense.float_of_Z z) = true)).
    + exact float64_exact_division.
    + reflexivity.
    + reflexivity.
    + reflexivity.
  - apply (proj2 (proj2 (build_likelihood_rescaled_elbo Examples.QB
             Examples.envQ Examples.full_batchQ
             (TF.convert_to_tensor Examples.QB Examples.XQ)
             (TF.convert_to_tensor Examples.QB Examples.YQ)))
           (fun z => z <> 0%Z)).
    + exact rational_exact_division.
    + discriminate.
    + reflexivity.
    + reflexivity.
Defined.

(** C1, the claim as worded fails on an empty data set: the constructor
    leaves [minibatch_size = num_data = 0], the batch has no row, and the
    factor is 0/0, not 1. *)
Lemma build_likelihood_rescale_empty_data :
  Examples.svgp64 Examples.X01 Examples.Y01 Examples.Z21
    (Dense.linear_kernel Dense.float64) None false true
  = Py.Ok Examples.empty64
  /\ GPflow.minibatch_size (SVGP.X Examples.empty64)
     = Z.of_nat (SVGP.num_data Examples.empty64)
  /\ GPflow.is_batch_of (TF.convert_to_tensor Examples.F64 Examples.X01)
       (SVGP.X Examples.empty64)
  /\ SVGP.scale Examples.F64 Examples.empty64
       (TF.convert_to_tensor Examples.F64 Examples.X01)
     <> TF.cast Examples.F64 1.
Proof.
  repeat split.
  intros E.
  apply (f_equal (fun t : Numpy.ndarray float =>
                    match Numpy.buffer t with
                    | x :: _ => PrimFloat.is_nan x
                    | [] => false
                    end)) in E.
  vm_compute in E. discriminate E.
Qed.





(** C3 (as the code has it).  The constructor checks neither the row count
    of [Z] nor that [X] and [Z] have as many columns: for matrices [X], [Y],
    [Z] of any sizes it completes as soon as the number of latents is
    non-negative (positive for a full covariance), with
    [num_inducing = rows(Z)]. *)
Theorem init_no_shape_validation (B : TF.backend) (G : GPflow.env B)
    X Y kern lik Z mf (nl : option BinNums.Z) (qd : bool) wh mb seed
    (N Dx Ny R M Dz : nat) :
  Numpy.shape X = [N; Dx] ->
  Numpy.shape Y = [Ny; R] ->
  Numpy.shape Z = [M; Dz] ->
  ((if qd then 0 else 1) <=
   match nl with
   | Some n => if (n =? 0)%Z then Z.of_nat R else n
   | None => Z.of_nat R
   end)%Z ->
  exists m,
    SVGP.__init__ B G X Y kern lik Z mf nl qd wh mb seed = Py.Ok m /\
    SVGP.num_inducing m = M /\ SVGP.num_data m = N.
Proof.
  intros HX HY HZ HL.
  destruct (init_ok B G X Y kern lik Z mf nl qd wh mb seed N M
              (match nl with
               | Some n => if (n =? 0)%Z then Z.of_nat R else n
               | None => Z.of_nat R
               end)) as [m Hm]; try assumption.
  - now rewrite HX.
  - now rewrite HZ.
  - unfold SVGP.num_latent_or, Numpy.shape_at. cbn [GPflow.data].
    rewrite HY. cbn. destruct nl as [n|]; [destruct (n =? 0)%Z|]; reflexivity.
  - exists m. split; [assumption|].
    apply init_inv in Hm
      as (N' & M' & bs & L & EX & EZ & _ & _ & _ & HN & _ & _ & _ & _ & _ & _
          & _ & _ & _ & HM & _).
    rewrite HX in EX. rewrite HZ in EZ. cbn in EX, EZ.
    split; congruence.
Qed.

Lemma init_no_shape_validation_witness :
  exists m,
    Examples.svgp64 Examples.X41 Examples.Y41 Examples.Z03
      (Dense.linear_kernel Dense.float64) None false true = Py.Ok m /\
    SVGP.num_inducing m = 0%nat /\ SVGP.num_data m = 4%nat.
Proof.
  apply (init_no_shape_validation Examples.F64 Examples.env64
           Examples.X41 Examples.Y41 _ _ Examples.Z03 None None false true
           None 27184%Z 4 1 4 1 0 3).
  - reflexivity.
  - reflexivity.
  - reflexivity.
  - simpl. lia.
Defined.

(** C3, the claim as worded fails: inducing inputs with no row and three
    columns, against one-column data, are accepted. *)
Lemma init_accepts_empty_mismatched_Z :
  Numpy.shape Examples.Z03 = [0; 3]%nat
  /\ Numpy.shape Examples.X41 = [4; 1]%nat
  /\ Py.returns (Examples.svgp64 Examples.X41 Examples.Y41 Examples.Z03
                   (Dense.linear_kernel Dense.float64) None false true)
     = true.
Proof. repeat split. Qed.

(** C4 (as the code has it).  After a successful construction, with
    [M = num_inducing] and [L = num_latent]: [q_mu] is the M×L array of
    zeros; with [q_diag], [q_sqrt] is the M×L array of ones under
    [transforms.positive]; without, [q_sqrt] has shape M×M×L, holds one at
    [[i, i, l]] and zero elsewhere, under
    [transforms.LowerTriangular(M, L)]. *)
Theorem init_variational_parameters (B : TF.backend) (G : GPflow.env B)
    X Y kern lik Z mf nl (qd : bool) wh mb seed (m : SVGP.model B) :
  SVGP.__init__ B G X Y kern lik Z mf nl qd wh mb seed = Py.Ok m ->
  let M := SVGP.num_inducing m in
  let L := Z.to_nat (SVGP.num_latent m) in
  Numpy.shape Z !! 0%nat = Some M /\
  (exists bs,
     SVGP.num_latent_or B nl
       (GPflow.MkMinibatchData Y bs (GPflow.MkRandomState 0))
     = Py.Ok (SVGP.num_latent m)) /\
  (0 <= SVGP.num_latent m)%Z /\
  SVGP.q_mu m = GPflow.MkParam (Numpy.full (TF.s0 B) [M; L]) None /\
  (forall i l, (i < M)%nat -> (l < L)%nat ->
     Numpy.get (GPflow.value (SVGP.q_mu m)) [i; l] = Some (TF.s0 B)) /\
  if qd then
    SVGP.q_sqrt m =
      GPflow.MkParam (Numpy.full (TF.s1 B) [M; L]) (Some GPflow.positive) /\
    (forall i l, (i < M)%nat -> (l < L)%nat ->
       Numpy.get (GPflow.value (SVGP.q_sqrt m)) [i; l] = Some (TF.s1 B))
  else
    Numpy.shape (GPflow.value (SVGP.q_sqrt m)) = [M; M; L] /\
    GPflow.transform (SVGP.q_sqrt m) =
      Some (GPflow.LowerTriangular (Z.of_nat M) (SVGP.num_latent m)) /\
    (forall i j l, (i < M)%nat -> (j < M)%nat -> (l < L)%nat ->
       Numpy.get (GPflow.value (SVGP.q_sqrt m)) [i; j; l] =
         Some (if (i =? j)%nat then TF.s1 B else TF.s0 B)).
Proof.
  intros H. apply init_inv in H
    as (N & M & bs & L & _ & EZ & _ & HnL & HL0 & _ & _ & _ & _ & _ & _ & _
        & _ & _ & HL & HM & Hmu & _ & Hsq).
  cbn zeta. rewrite HM, HL, Hmu. cbn [GPflow.value].
  split; [assumption|]. split; [now exists bs|]. split; [assumption|].
  split; [reflexivity|].
  split; [intros; now apply get_full|].
  destruct qd.
  - rewrite Hsq. split; [reflexivity|].
    cbn [GPflow.value]. intros; now apply get_full.
  - destruct Hsq as (HL1 & Hv & Ht).
    destruct (swapaxes_eye_list B M L HL1) as (a & Ha & Hshape & Hget).
    rewrite Ha in Hv. injection Hv as ->.
    repeat split; assumption.
Qed.

Lemma init_variational_parameters_witness :
  Numpy.shape (GPflow.value (SVGP.q_sqrt Examples.scenario64)) = [2; 2; 1]%nat.
Proof.
  pose proof (init_variational_parameters Examples.F64 Examples.env64
                Examples.X41 Examples.Y41
                (Dense.linear_kernel Dense.float64)
                (Dense.gaussian Dense.float64) Examples.Z21 None None false
                true None 27184%Z Examples.scenario64 eq_refl) as H.
  exact (proj1 (proj2 (proj2 (proj2 (proj2 (proj2 H)))))).
Defined.

(** C4, the claim as worded fails on the shape of the full-covariance
    [q_sqrt]: with two inducing points and one latent it is (2, 2, 1), not
    (1, 2, 2). *)
Lemma init_q_sqrt_shape_not_LMM :
  Examples.svgp64 Examples.X41 Examples.Y41 Examples.Z21
    (Dense.linear_kernel Dense.float64) None false true
  = Py.Ok Examples.scenario64
  /\ SVGP.num_inducing Examples.scenario64 = 2%nat
  /\ SVGP.num_latent Examples.scenario64 = 1%Z
  /\ Numpy.shape (GPflow.value (SVGP.q_sqrt Examples.scenario64))
     = [2; 2; 1]%nat
  /\ Numpy.shape (GPflow.value (SVGP.q_sqrt Examples.scenario64))
     <> [1; 2; 2]%nat.
Proof. repeat split. discriminate. Qed.

(** C5.  [build_prior_KL] is the KL routine selected by the pair
    [(whiten, q_diag)]: the two whitened routines get no prior covariance
    and the result does not depend on the kernel; the two others get
    [kern.K(Z)] plus the jitter constant times the M×M identity. *)
Theorem build_prior_KL_variants (B : TF.backend) (G : GPflow.env B)
    (m : SVGP.model B) :
  Some (SVGP.build_prior_KL B G m) =
    Spec.kl B G (SVGP.tensor_of B (SVGP.q_mu m))
      (SVGP.tensor_of B (SVGP.q_sqrt m))
      (if SVGP.whiten m then None
       else Some (Spec.prior_covariance B G (SVGP.kern m)
                    (SVGP.tensor_of B (SVGP.Z_ m))
                    (Z.of_nat (SVGP.num_inducing m))))
      (SVGP.whiten m) (SVGP.q_diag m)
  /\ (SVGP.whiten m = true ->
      forall kern',
        SVGP.build_prior_KL B G (SVGP.with_kern m kern')
        = SVGP.build_prior_KL B G m).
Proof.
  split.
  - unfold SVGP.build_prior_KL, Spec.kl, Spec.prior_covariance.
    destruct (SVGP.whiten m), (SVGP.q_diag m); reflexivity.
  - intros Hw kern'. unfold SVGP.build_prior_KL, SVGP.with_kern.
    cbn [SVGP.whiten SVGP.q_diag SVGP.q_mu SVGP.q_sqrt].
    rewrite Hw. reflexivity.
Qed.

Lemma build_prior_KL_variants_witness :
  SVGP.build_prior_KL Examples.F64 Examples.env64
    (SVGP.with_kern Examples.scenario64
       (Dense.featureless_kernel Dense.float64))
  = SVGP.build_prior_KL Examples.F64 Examples.env64 Examples.scenario64.
Proof.
  apply (proj2 (build_prior_KL_variants Examples.F64 Examples.env64
                  Examples.scenario64)).
  reflexivity.
Defined.

(** C6.  With [num_latent != 1] the assertion fails; with
    [num_latent == 1] and a kernel whose [create_feature_map_func] raises
    [NotImplementedError], that error propagates.  Nothing is returned in
    either case. *)
Theorem linear_weights_posterior_errors (B : TF.backend) (G : GPflow.env B)
    (m : SVGP.model B) :
  (SVGP.num_latent m <> 1%Z ->
   SVGP.linear_weights_posterior B G m =
     Py.Raise (Py.AssertionError
                 "Only yet implemented for one latent variable GP.")) /\
  (SVGP.num_latent m = 1%Z ->
   GPflow.create_feature_map_func (SVGP.kern m)
     (SVGP.random_seed_for_random_features m)
     = Py.Raise Py.NotImplementedError ->
   SVGP.linear_weights_posterior B G m = Py.Raise Py.NotImplementedError).
Proof.
  unfold SVGP.linear_weights_posterior. split.
  - intros HL. apply Z.eqb_neq in HL. now rewrite HL.
  - intros HL HF. rewrite HL, HF. reflexivity.
Qed.

Lemma linear_weights_posterior_errors_witness :
  SVGP.linear_weights_posterior Examples.F64 Examples.env64
    Examples.two_latents64
  = Py.Raise (Py.AssertionError
                "Only yet implemented for one latent variable GP.")
  /\ SVGP.linear_weights_posterior Examples.F64 Examples.env64
       Examples.featureless64
     = Py.Raise Py.NotImplementedError.
Proof.
  split.
  - apply (proj1 (linear_weights_posterior_errors Examples.F64
                    Examples.env64 Examples.two_latents64)).
    simpl. lia.
  - apply (proj2 (linear_weights_posterior_errors Examples.F64
                    Examples.env64 Examples.featureless64)).
    + reflexivity.
    + reflexivity.
Defined.

(** The assertion comes first: with two latents the kernel is not asked for
    its feature map. *)
Example linear_weights_posterior_two_latents_featureless :
  Examples.svgp64 Examples.X41 Examples.Y41 Examples.Z21
    (Dense.featureless_kernel Dense.float64) (Some 2%Z) false true
  = Py.Ok Examples.two_latents64
  /\ SVGP.linear_weights_posterior Examples.F64 Examples.env64
       Examples.two_latents64
     = Py.Raise (Py.AssertionError
                   "Only yet implemented for one latent variable GP.").
Proof. repeat split. Qed.

(** C7.  [build_predict(Xnew, full_cov)] calls the conditional predictor
    with [(Xnew, Z, kern, q_mu, q_sqrt, full_cov, whiten)], adds the mean
    function at [Xnew] to its mean and returns its variance as it is. *)
Theorem build_predict_delegates (B : TF.backend) (G : GPflow.env B)
    (m : SVGP.model B) (Xnew : TF.Tensor B) (full_cov : bool) :
  let c := GPflow.conditional G Xnew (SVGP.tensor_of B (SVGP.Z_ m))
             (SVGP.kern m) (SVGP.tensor_of B (SVGP.q_mu m))
             (SVGP.tensor_of B (SVGP.q_sqrt m)) full_cov (SVGP.whiten m) in
  SVGP.build_predict B G m Xnew full_cov =
    (TF.add B (fst c) (SVGP.mean_function m Xnew), snd c).
Proof.
  cbn zeta. unfold SVGP.build_predict.
  destruct (GPflow.conditional G _ _ _ _ _ _ _) as [mu var]. reflexivity.
Qed.


(* ===================================================================== *)
(** * The naming tree: statements *)
(* ===================================================================== *)

Lemma sorted_lt_NoDup (ns : list N) : StronglySorted N.lt ns -> NoDup ns.
Proof.
  induction 1 as [|n ns _ IH Hall]; constructor; [|assumption].
  intros Hin. rewrite Forall_forall in Hall.
  specialize (Hall n Hin). lia.
Qed.

(** A creation or a renaming without a (truthy) name stores
    [index/ClassName], the index being the current counter. *)
Lemma init_auto_named (cls : string) (nm : option string) (idx : N) :
  Parentable.truthy nm = false ->
  Parentable.__init__ cls nm idx =
    (Parentable.Obj cls None (PyStr.format_index_name idx cls), (idx + 1)%N).
Proof.
  intros H. unfold Parentable.__init__, Parentable.bind.
  now rewrite define_name_falsy.
Qed.

Lemma set_name_auto_named (o : Parentable.obj) (nm : option string) (idx : N) :
  Parentable.truthy nm = false ->
  Parentable.set_name o nm idx =
    (Parentable.Obj (Parentable.cls_name o) (Parentable._parent o)
       (PyStr.format_index_name idx (Parentable.cls_name o)), (idx + 1)%N).
Proof.
  intros H. unfold Parentable.set_name, Parentable.bind.
  now rewrite define_name_falsy.
Qed.

(** C8 (as the code has it).  Let a node store an auto-generated name,
    [i/ClassName].  Its [name] property is the class name and [hidden_name]
    keeps the prefix, also once [set_parent] has put it under a parent.
    [_reset_name] replaces the stored name by a freshly numbered one,
    [index/ClassName] for the current counter value, and bumps the counter;
    [name] still reads as the class name. *)
Theorem auto_named_node_names (o : Parentable.obj) (i : N) :
  Parentable._name o = PyStr.format_index_name i (Parentable.cls_name o) ->
  Parentable.name o = Parentable.cls_name o /\
  (forall p,
     Parentable.name (Parentable.set_parent o p) = Parentable.cls_name o /\
     Parentable.hidden_name (Parentable.set_parent o p)
       = PyStr.format_index_name i (Parentable.cls_name o)) /\
  (forall index,
     Parentable._reset_name o index =
       (Parentable.Obj (Parentable.cls_name o) (Parentable._parent o)
          (PyStr.format_index_name index (Parentable.cls_name o)),
        (index + 1)%N) /\
     Parentable.name (fst (Parentable._reset_name o index))
       = Parentable.cls_name o /\
     Parentable.hidden_name (fst (Parentable._reset_name o index))
       <> Parentable.name (fst (Parentable._reset_name o index))).
Proof.
  intros Ho. split; [now apply (name_of_generated o i)|]. split.
  - intros p. split; [|exact Ho].
    now apply (name_of_generated (Parentable.set_parent o p) i).
  - intros index. rewrite (reset_name_generated o i index Ho). cbn [fst].
    set (o' := Parentable.Obj _ _ _).
    assert (Hn : Parentable.name o' = Parentable.cls_name o)
      by now apply (name_of_generated o' index).
    repeat split; [exact Hn|].
    rewrite Hn. apply format_neq_suffix.
Qed.

Lemma auto_named_node_names_witness :
  Parentable.name (fst (Parentable.__init__ "Param" None 7%N)) = "Param".
Proof.
  exact (proj1 (auto_named_node_names
                  (fst (Parentable.__init__ "Param" None 7%N)) 7%N eq_refl)).
Defined.

(** C8, the claim as worded fails on [_reset_name]: the first node of class
    [Param] is stored as [0/Param]; after [_reset_name] with the counter at 1
    it is stored as [1/Param], which still carries a numeric prefix. *)
Lemma reset_name_keeps_a_prefix :
  let o := fst (Parentable.__init__ "Param" None 0%N) in
  let o' := fst (Parentable._reset_name o 1%N) in
  Parentable.hidden_name o = "0/Param"
  /\ Parentable.hidden_name o' = "1/Param"
  /\ Parentable.prefix_number (Parentable.hidden_name o') = Some 1%N
  /\ Parentable.hidden_name o' <> Parentable.name o'.
Proof. repeat split. discriminate. Qed.

(** C9.  Whatever the program (nodes of any classes created, renamed,
    attached, reset): every creation without a name appends one node whose
    hidden name is [counter/ClassName] and bumps the one counter; the hidden
    names so given are, creation by creation, [n/ClassName] for numbers [n]
    taken between the initial and the final value of the counter, strictly
    increasing in creation order, hence never repeated. *)
Theorem unnamed_prefixes_increase (cs : list Parentable.cmd)
    (w : Parentable.world) :
  (forall cls nm w0,
     Parentable.truthy nm = false ->
     Parentable.exec (Parentable.New cls nm) w0 =
       Parentable.World (Parentable.index w0 + 1)
         (Parentable.nodes w0
            ++ [Parentable.Obj cls None
                  (PyStr.format_index_name (Parentable.index w0) cls)])) /\
  exists ns : list N,
    length ns = length (Parentable.unnamed_classes cs) /\
    snd (Parentable.run cs w) =
      zip_with PyStr.format_index_name ns (Parentable.unnamed_classes cs) /\
    map Parentable.prefix_number (snd (Parentable.run cs w)) = map Some ns /\
    StronglySorted N.lt ns /\
    NoDup ns /\
    Forall (fun n => (Parentable.index w <= n
                      < Parentable.index (fst (Parentable.run cs w)))%N) ns.
Proof.
  split; [intros cls nm w0; apply exec_new_falsy|].
  pose proof (run_log_sorted cs w) as H.
  destruct (Parentable.run cs w) as [w' log].
  destruct H as (_ & ns & Hlen & Hlog & Hall & Hsort).
  exists ns. cbn [fst snd]. repeat split; auto using sorted_lt_NoDup.
  rewrite Hlog. now apply prefix_number_zip.
Qed.

Lemma unnamed_prefixes_increase_witness :
  Parentable.exec (Parentable.New "Param" None) (Parentable.World 7 []) =
    Parentable.World 8 [Parentable.Obj "Param" None "7/Param"].
Proof.
  apply (proj1 (unnamed_prefixes_increase [] Parentable.empty_world)
           "Param" None (Parentable.World 7 [])).
  reflexivity.
Defined.

(** C10.  A node without parent is its own [parent] and its own [root];
    [parent] is never [None]. *)
Theorem parent_and_root_of_orphan (h : list Parentable.obj)
    (self : Parentable.ref) (o : Parentable.obj) :
  h !! self = Some o ->
  Parentable._parent o = None ->
  Parentable.parent self o = Some self /\
  (forall depth, Parentable.root (S depth) h self = Some self) /\
  (forall o' : Parentable.obj, Parentable.parent self o' <> None).
Proof.
  intros Hh Hp. repeat split.
  - unfold Parentable.parent. now rewrite Hp.
  - intros depth. simpl. rewrite Hh. simpl. now rewrite Hp.
  - intros o'. unfold Parentable.parent.
    destruct (Parentable._parent o'); discriminate.
Qed.

Lemma parent_and_root_of_orphan_witness :
  Parentable.parent 0%nat (Parentable.Obj "Model" None "0/Model") = Some 0%nat
  /\ Parentable.root 1 [Parentable.Obj "Model" None "0/Model"] 0%nat
     = Some 0%nat.
Proof.
  destruct (parent_and_root_of_orphan
              [Parentable.Obj "Model" None "0/Model"] 0%nat
              (Parentable.Obj "Model" None "0/Model") eq_refl eq_refl)
    as (Hp & Hr & _).
  split; [exact Hp | exact (Hr 0%nat)].
Defined.

(* ===================================================================== *)
(** * Worked examples *)
(* ===================================================================== *)

(** Three unnamed nodes of three classes, one named node in between, and a
    reset of the first. *)
Example parentable_run_demo :
  Parentable.run [Parentable.New "Param" None; Parentable.New "Kern" (Some "k");
                  Parentable.New "Model" None; Parentable.ResetName 0%nat]
                 Parentable.empty_world
  = (Parentable.World 3
       [Parentable.Obj "Param" None "2/Param"; Parentable.Obj "Kern" None "k";
        Parentable.Obj "Model" None "1/Model"],
     ["0/Param"; "1/Model"]).
Proof. reflexivity. Qed.

(** A chain [0 <- 1 <- 2]: the root of the last node is the first; the full
    name is the path of plain names, the hidden full name keeps the index of
    the root only.  Three frames are enough for [root] and
    [hidden_full_name]; [full_name] needs a fourth for the [name] getter of
    the first node. *)
Example parentable_root_chain :
  let h := [Parentable.Obj "Model" None "0/Model";
            Parentable.Obj "Kern" (Some 0%nat) "1/Kern";
            Parentable.Obj "Param" (Some 1%nat) "2/Param"] in
  Parentable.root 3 h 2%nat = Some 0%nat
  /\ Parentable.parent 2%nat (Parentable.Obj "Param" (Some 1%nat) "2/Param")
     = Some 1%nat
  /\ Parentable.full_name 4 h 2%nat = Some "Model/Kern/Param"
  /\ Parentable.full_name 3 h 2%nat = None
  /\ Parentable.hidden_full_name 3 h 2%nat = Some "0/Model/Kern/Param".
Proof. repeat split. Qed.

(** An explicit name that starts with digits and a slash loses them in
    [name] as well; a superscript two (U+00B2) counts as a digit. *)
Example parentable_explicit_digit_name :
  Parentable.name (Parentable.Obj "Param" None "12/weights") = "weights"
  /\ Parentable.name (Parentable.Obj "Param" None "a1/weights") = "a1/weights"
  /\ Parentable.name (Parentable.Obj "Param" None "1/a/b") = "a/b"
  /\ Parentable.name
       (Parentable.Obj "Param" None (String (ascii_of_nat 178) "/x")) = "x".
Proof. repeat split. Qed.

(** The end-to-end scenario on binary64: the constructor output, KL = 0 at
    initialisation and a rescale factor of one. *)
Example svgp_scenario :
  Examples.svgp64 Examples.X41 Examples.Y41 Examples.Z21
    (Dense.linear_kernel Dense.float64) None false true
  = Py.Ok Examples.scenario64
  /\ Numpy.buffer (SVGP.build_prior_KL Examples.F64 Examples.env64
                     Examples.scenario64) = [0%float]
  /\ Numpy.buffer (SVGP.scale Examples.F64 Examples.scenario64 Examples.X41)
     = [1%float]
  /\ Numpy.buffer (SVGP.build_likelihood Examples.F64 Examples.env64
                     Examples.scenario64 Examples.X41 Examples.Y41)
     = [(-5)%float].
Proof. repeat split. Qed.

(** Half a batch doubles the data term. *)
Example svgp_half_batch :
  Numpy.buffer
    (SVGP.scale Examples.F64 Examples.scenario64
       (Examples.matrix 2 1 [1; 2]%float)) = [2%float].
Proof. reflexivity. Qed.

(** In exact arithmetic, on inducing inputs with a rational Cholesky factor,
    the vector [Kzzinv_u] of [linear_weights_posterior] does solve
    [K_approx · x = u]. *)
Example linear_weights_solves_system :
  let kern := SVGP.kern Examples.exactQ in
  let q_mu := GPflow.value (SVGP.q_mu Examples.exactQ) in
  let x := Spec.Kzzinv_u Examples.QB Examples.envQ0 kern Examples.ZQ22 q_mu
             true Examples.ZQ22 in
  map Qcanon.this
    (Dense.elements Dense.rational
       (Spec.mmul Examples.QB
          (Spec.K_approx Examples.QB Examples.envQ0 Examples.ZQ22) x))
  = map Qcanon.this
      (Dense.elements Dense.rational
         (Spec.u Examples.QB Examples.envQ0 kern Examples.ZQ22 q_mu true
            Examples.ZQ22)).
Proof. vm_compute. reflexivity. Qed.

(** Construction fails when there is nothing to stack or a dimension is
    negative. *)
Example svgp_init_failures :
  Examples.svgp64 Examples.X41 (Examples.matrix 4 0 []) Examples.Z21
    (Dense.linear_kernel Dense.float64) None false true
  = Py.Raise Py.AxisError
  /\ Examples.svgp64 Examples.X41 Examples.Y41 Examples.Z21
       (Dense.linear_kernel Dense.float64) (Some (-1)%Z) true true
     = Py.Raise Py.ValueError.
Proof. split; reflexivity. Qed.

(* ===================================================================== *)
(** * More on the naming tree *)
(* ===================================================================== *)

Section MoreStrings.
Import PyStr.


Lemma string_app_assoc (a b c : string) :
  ((a ++ b) ++ c)%string = (a ++ (b ++ c))%string.
Proof. induction a as [|x a IH]; simpl; congruence. Qed.

Lemma isdigit_all_digits (a : string) :
  isdigit a = true -> all_digits a = true.
Proof. destruct a; [discriminate|auto]. Qed.

(** What [cut_slash] returns splits the string at a slash. *)
Lemma cut_slash_some (s a b : string) :
  cut_slash s = (a, Some b) -> s = (a ++ "/" ++ b)%string.
Proof.
  revert a. induction s as [|c s IH]; simpl; intros a H; [discriminate|].
  destruct (Ascii.eqb_spec c "/") as [->|_].
  - injection H as <- <-. reflexivity.
  - destruct (cut_slash s) as [a' b'] eqn:E. injection H as <- ->.
    simpl. f_equal. now apply IH.
Qed.

Lemma cut_slash_none (s a : string) :
  cut_slash s = (a, None) -> a = s.
Proof.
  revert a. induction s as [|c s IH]; simpl; intros a H.
  - now injection H.
  - destruct (Ascii.eqb c "/"); [discriminate|].
    destruct (cut_slash s) as [a' b'] eqn:E. injection H as <- ->.
    f_equal. now apply IH.
Qed.

Lemma cut_slash_digit_prefix (a b : string) :
  isdigit a = true -> cut_slash (a ++ "/" ++ b)%string = (a, Some b).
Proof.
  intros H. change ("/" ++ b)%string with (String "/" b).
  now apply cut_slash_digits, isdigit_all_digits.
Qed.

Lemma slash_app_neq (a b : string) : (a ++ "/" ++ b)%string <> b.
Proof.
  intros H. apply (f_equal String.length) in H.
  rewrite !length_append in H. simpl in H. lia.
Qed.

End MoreStrings.

Section MoreParentable.
Import PyStr Parentable Programs.

Lemma name_numbered (o : obj) (a b : string) :
  isdigit a = true -> _name o = (a ++ "/" ++ b)%string -> name o = b.
Proof.
  intros Ha Hn. unfold name, split_slash_1.
  rewrite Hn, cut_slash_digit_prefix by assumption. simpl.
  now rewrite Ha.
Qed.

Lemma name_not_numbered (o : obj) :
  ~ numbered (_name o) -> name o = _name o.
Proof.
  intros Hn. unfold name, split_slash_1.
  destruct (cut_slash (_name o)) as [a [b|]] eqn:E; simpl; [|reflexivity].
  destruct (isdigit a) eqn:Ha; [|reflexivity].
  exfalso. apply Hn. exists a, b. split; [assumption|].
  now apply cut_slash_some.
Qed.

Lemma numbered_format (i : N) (cls : string) :
  numbered (format_index_name i cls).
Proof. exists (str_of_N i), cls. split; [apply isdigit_str_of_N|reflexivity]. Qed.

Lemma reset_name_numbered (o : obj) (idx : N) :
  numbered (_name o) ->
  _reset_name o idx =
    (Obj (cls_name o) (_parent o) (format_index_name idx (cls_name o)),
     (idx + 1)%N).
Proof.
  intros (a & b & Ha & Hn). unfold _reset_name, hidden_name.
  rewrite (name_numbered o a b Ha Hn), Hn.
  destruct (String.eqb_spec (a ++ "/" ++ b) b) as [E|_];
    [now apply slash_app_neq in E|].
  reflexivity.
Qed.

Lemma reset_name_plain (o : obj) (idx : N) :
  ~ numbered (_name o) -> _reset_name o idx = (o, idx).
Proof.
  intros Hn. unfold _reset_name, hidden_name.
  rewrite (name_not_numbered o Hn), String.eqb_refl. reflexivity.
Qed.

Lemma define_name_explicit (cls s : string) (idx : N) :
  s <> "" -> _define_name cls (Some s) idx = (s, idx).
Proof.
  intros Hs. unfold _define_name.
  destruct s; [congruence|reflexivity].
Qed.

End MoreParentable.

(** X1.  The [name] property is the stored name with a leading
    [digits/] removed: when the stored name is a digit string (a non-empty
    string on which [str.isdigit] holds, superscript digits included), a
    slash and a rest, [name] is the rest; for every other stored name it is
    the stored name.  In both cases it is a suffix of [hidden_name]. *)
Theorem name_strips_one_numeric_prefix (o : Parentable.obj) :
  (forall a b,
     PyStr.isdigit a = true ->
     Parentable._name o = (a ++ "/" ++ b)%string ->
     Parentable.name o = b) /\
  (~ Programs.numbered (Parentable._name o) ->
   Parentable.name o = Parentable._name o) /\
  (exists pre,
     Parentable.hidden_name o = (pre ++ Parentable.name o)%string).
Proof.
  split; [intros a b; apply name_numbered|].
  split; [apply name_not_numbered|].
  unfold Parentable.hidden_name, Parentable.name, PyStr.split_slash_1.
  destruct (PyStr.cut_slash (Parentable._name o)) as [a [b|]] eqn:E; simpl.
  - destruct (PyStr.isdigit a).
    + exists (a ++ "/")%string. rewrite string_app_assoc.
      now apply cut_slash_some.
    + now exists "".
  - now exists "".
Qed.

Lemma name_strips_one_numeric_prefix_witness :
  Parentable.name (Parentable.Obj "Param" None "12/3/w") = "3/w"
  /\ Parentable.name
       (Parentable.Obj "Param" None (String (ascii_of_nat 178) "/w")) = "w"
  /\ Parentable.name (Parentable.Obj "Param" None "x1/w") = "x1/w".
Proof.
  destruct (name_strips_one_numeric_prefix
              (Parentable.Obj "Param" None "12/3/w")) as (H1 & _ & _).
  destruct (name_strips_one_numeric_prefix
              (Parentable.Obj "Param" None (String (ascii_of_nat 178) "/w")))
    as (H3 & _ & _).
  destruct (name_strips_one_numeric_prefix
              (Parentable.Obj "Param" None "x1/w")) as (_ & H2 & _).
  split; [|split].
  - apply (H1 "12" "3/w"); reflexivity.
  - apply (H3 (String (ascii_of_nat 178) "") "w"); reflexivity.
  - apply H2. intros (a & b & Ha & Hn). simpl in Hn.
    destruct a as [|c a]; [discriminate Ha|].
    simpl in Hn. injection Hn as <- _. discriminate Ha.
Defined.

(** X2.  [set_name] with a non-empty name stores exactly that name, keeps
    class and parent and leaves the counter alone; reading [name] back gives
    the name that was set unless it starts with digits and a slash.
    [set_name] with no (or an empty) name stores [counter/ClassName] and
    bumps the counter. *)
Theorem set_name_then_read (o : Parentable.obj) (idx : N) :
  (forall s, s <> "" ->
     Parentable.set_name o (Some s) idx =
       (Parentable.Obj (Parentable.cls_name o) (Parentable._parent o) s, idx)
     /\ (Parentable.name (fst (Parentable.set_name o (Some s) idx)) = s
         <-> ~ Programs.numbered s)) /\
  (forall nm, Parentable.truthy nm = false ->
     Parentable.set_name o nm idx =
       (Parentable.Obj (Parentable.cls_name o) (Parentable._parent o)
          (PyStr.format_index_name idx (Parentable.cls_name o)),
        (idx + 1)%N)).
Proof.
  split.
  - intros s Hs.
    assert (E : Parentable.set_name o (Some s) idx =
                (Parentable.Obj (Parentable.cls_name o)
                   (Parentable._parent o) s, idx)).
    { unfold Parentable.set_name, Parentable.bind.
      now rewrite define_name_explicit. }
    split; [exact E|]. rewrite E. cbn [fst]. split.
    + intros Hn (a & b & Ha & Hab).
      rewrite (name_numbered
                 (Parentable.Obj (Parentable.cls_name o)
                    (Parentable._parent o) s) a b Ha Hab) in Hn.
      rewrite Hab in Hn. symmetry in Hn. now apply slash_app_neq in Hn.
    + intros Hn. now apply name_not_numbered.
  - intros nm Hnm. now apply set_name_auto_named.
Qed.

Lemma set_name_then_read_witness :
  Parentable.set_name (Parentable.Obj "Param" (Some 3%nat) "0/Param")
    (Some "weights") 5%N
  = (Parentable.Obj "Param" (Some 3%nat) "weights", 5%N)
  /\ Parentable.set_name (Parentable.Obj "Param" (Some 3%nat) "weights")
       None 5%N
     = (Parentable.Obj "Param" (Some 3%nat) "5/Param", 6%N).
Proof.
  destruct (set_name_then_read
              (Parentable.Obj "Param" (Some 3%nat) "0/Param") 5%N)
    as (H1 & _).
  destruct (set_name_then_read
              (Parentable.Obj "Param" (Some 3%nat) "weights") 5%N)
    as (_ & H2).
  split.
  - apply (H1 "weights"). discriminate.
  - apply (H2 None). reflexivity.
Defined.

(** X3.  [_reset_name] renumbers exactly the nodes whose stored name starts
    with digits and a slash, whether the name was generated or given by the
    caller: such a name is replaced by [counter/ClassName] and the counter
    is bumped; any other node and the counter are left as they are. *)
Theorem reset_name_renumbers_numbered_names (o : Parentable.obj) (idx : N) :
  (Programs.numbered (Parentable._name o) ->
   Parentable._reset_name o idx =
     (Parentable.Obj (Parentable.cls_name o) (Parentable._parent o)
        (PyStr.format_index_name idx (Parentable.cls_name o)),
      (idx + 1)%N)) /\
  (~ Programs.numbered (Parentable._name o) ->
   Parentable._reset_name o idx = (o, idx)).
Proof. split; [apply reset_name_numbered | apply reset_name_plain]. Qed.

Lemma reset_name_renumbers_numbered_names_witness :
  Parentable._reset_name (Parentable.Obj "Param" None "12/weights") 4%N
  = (Parentable.Obj "Param" None "4/Param", 5%N)
  /\ Parentable._reset_name
       (Parentable.Obj "Param" None (String (ascii_of_nat 178) "/x")) 4%N
     = (Parentable.Obj "Param" None "4/Param", 5%N).
Proof.
  split.
  - apply (proj1 (reset_name_renumbers_numbered_names
                    (Parentable.Obj "Param" None "12/weights") 4%N)).
    exists "12", "weights". split; reflexivity.
  - apply (proj1 (reset_name_renumbers_numbered_names
                    (Parentable.Obj "Param" None
                       (String (ascii_of_nat 178) "/x")) 4%N)).
    exists (String (ascii_of_nat 178) ""), "x". split; reflexivity.
Defined.

Section MoreTree.
Import PyStr Parentable.

Lemma root_step (depth : nat) (h : heap) (self r : ref) :
  root depth h self = Some r -> root (S depth) h self = Some r.
Proof.
  revert self. induction depth as [|d IH]; intros self H; [discriminate|].
  cbn [root] in *. destruct (h !! self) as [o|]; [|discriminate]. simpl in *.
  destruct (_parent o) as [p|]; [|assumption]. now apply IH.
Qed.

Lemma root_mono (d d' : nat) (h : heap) (self r : ref) :
  (d <= d')%nat -> root d h self = Some r -> root d' h self = Some r.
Proof.
  induction 1 as [|d' _ IH]; [auto|]. intros H. now apply root_step, IH.
Qed.

Lemma root_parentless (depth : nat) (h : heap) (self r : ref) :
  root depth h self = Some r ->
  exists o, h !! r = Some o /\ _parent o = None.
Proof.
  revert self. induction depth as [|d IH]; intros self H; [discriminate|].
  cbn [root] in H. destruct (h !! self) as [o|] eqn:E; [|discriminate].
  simpl in H. destruct (_parent o) as [p|] eqn:Ep.
  - now apply (IH p).
  - injection H as <-. eauto.
Qed.




Lemma full_name_needs_root (depth : nat) (h : heap) :
  forall self, root depth h self = None ->
    full_name depth h self = None /\ hidden_full_name depth h self = None.
Proof.
  induction depth as [|d IH]; intros self H; [split; reflexivity|].
  cbn [root full_name hidden_full_name] in *.
  destruct (h !! self) as [o|] eqn:E; [|split; reflexivity]. simpl in *.
  destruct (_parent o) as [p|] eqn:Ep; [|discriminate].
  destruct (IH p H) as [-> ->]. split; reflexivity.
Qed.

End MoreTree.

(** X4.  When [root] returns, what it returns is a node without parent,
    which is its own [root] and its own [parent]; a larger recursion budget
    returns the same node. *)
Theorem root_is_a_parentless_fixpoint (depth : nat)
    (h : list Parentable.obj) (self r : Parentable.ref) :
  Parentable.root depth h self = Some r ->
  (exists o, h !! r = Some o /\ Parentable._parent o = None /\
             Parentable.parent r o = Some r) /\
  Parentable.root 1 h r = Some r /\
  (forall depth', (depth <= depth')%nat ->
     Parentable.root depth' h self = Some r).
Proof.
  intros H. destruct (root_parentless depth h self r H) as (o & Ho & Hp).
  split; [|split].
  - exists o. repeat split; try assumption.
    unfold Parentable.parent. now rewrite Hp.
  - simpl. rewrite Ho. simpl. now rewrite Hp.
  - intros depth' Hle. now apply (root_mono depth depth').
Qed.

Lemma root_is_a_parentless_fixpoint_witness :
  Parentable.root 7
    [Parentable.Obj "Model" None "0/Model";
     Parentable.Obj "Kern" (Some 0%nat) "1/Kern"] 1%nat = Some 0%nat.
Proof.
  apply (proj2 (proj2 (root_is_a_parentless_fixpoint 2
           [Parentable.Obj "Model" None "0/Model";
            Parentable.Obj "Kern" (Some 0%nat) "1/Kern"] 1%nat 0%nat
           eq_refl))).
  lia.
Defined.

(** X5.  [set_parent] accepts any parent, and [root] does not detect
    cycles: from a node inside a set of nodes that all have a parent in the
    set (a node that is its own parent, two nodes that are each other's
    parent, ...) the recursion of [root] never reaches an end, whatever the
    recursion budget; [full_name] and [hidden_full_name] fail with it. *)
Theorem root_never_returns_on_a_cycle (h : list Parentable.obj)
    (inside : Parentable.ref -> Prop) (self : Parentable.ref) :
  (forall r o, inside r -> h !! r = Some o ->
     exists p, Parentable._parent o = Some p /\ inside p) ->
  inside self ->
  forall depth,
    Parentable.root depth h self = None /\
    Parentable.full_name depth h self = None /\
    Parentable.hidden_full_name depth h self = None.
Proof.
  intros Hclosed Hself depth.
  assert (H : Parentable.root depth h self = None).
  { revert self Hself. induction depth as [|d IH]; intros self Hself;
      [reflexivity|].
    cbn [Parentable.root]. destruct (h !! self) as [o|] eqn:E;
      [|reflexivity]. simpl.
    destruct (Hclosed self o Hself E) as (p & -> & Hp). now apply IH. }
  split; [exact H|]. now apply full_name_needs_root.
Qed.

Lemma root_never_returns_on_a_cycle_witness :
  Parentable.root 1000
    (Parentable.nodes
       (Parentable.exec (Parentable.SetParent 0%nat (Some 0%nat))
          (Parentable.World 1 [Parentable.Obj "Model" None "0/Model"])))
    0%nat = None.
Proof.
  apply (root_never_returns_on_a_cycle _ (fun r => r = 0%nat) 0%nat).
  - intros r o -> Ho. cbn in Ho. injection Ho as <-. now exists 0%nat.
  - reflexivity.
Defined.



Section Freshness.
Import PyStr Parentable Programs.

Lemma fresh_insert (w : world) (self : ref) (o o' : obj) (i' : N) :
  nodes w !! self = Some o ->
  renamed w (Some (_name o)) o' i' ->
  prefixes_below w -> prefixes_distinct w ->
  prefixes_below (World i' (<[self := o']> (nodes w))) /\
  prefixes_distinct (World i' (<[self := o']> (nodes w))).
Proof.
  intros Hself Hren Hb Hd.
  assert (Hlt : (self < length (nodes w))%nat)
    by (eapply lookup_lt_Some; eassumption).
  assert (Hle : (index w <= i')%N)
    by (destruct Hren as [[-> _]|[[-> _]|[-> _]]]; lia).
  assert (Hnew : forall n, prefix_number (_name o') = Some n ->
            (n < i')%N /\
            (forall r2 o2, r2 <> self -> nodes w !! r2 = Some o2 ->
               prefix_number (_name o2) <> Some n)).
  { intros n Hn. destruct Hren as [[-> E]|[[-> (s & [= <-] & E)]|[-> E]]].
    - congruence.
    - rewrite E in Hn. split; [now apply (Hb self o)|].
      intros r2 o2 Hne H2 Hp. apply Hne. now apply (Hd r2 self o2 o n).
    - rewrite E in Hn. injection Hn as <-. split; [lia|].
      intros r2 o2 _ H2 Hp. specialize (Hb r2 o2 _ H2 Hp). lia. }
  split.
  - intros r x n Hr Hn. cbn [nodes index] in *.
    destruct (decide (self = r)) as [<-|Hne].
    + rewrite list_lookup_insert_eq in Hr by assumption.
      injection Hr as <-. now apply Hnew.
    + rewrite list_lookup_insert_ne in Hr by assumption.
      specialize (Hb r x n Hr Hn). lia.
  - intros r1 r2 o1 o2 n H1 H2 Hn1 Hn2. cbn [nodes index] in *.
    destruct (decide (self = r1)) as [<-|Hne1];
      destruct (decide (self = r2)) as [<-|Hne2]; try reflexivity.
    + rewrite list_lookup_insert_eq in H1 by assumption.
      rewrite list_lookup_insert_ne in H2 by assumption.
      injection H1 as <-. destruct (Hnew n Hn1) as [_ Hother].
      exfalso. apply (Hother r2 o2); auto.
    + rewrite list_lookup_insert_ne in H1 by assumption.
      rewrite list_lookup_insert_eq in H2 by assumption.
      injection H2 as <-. destruct (Hnew n Hn2) as [_ Hother].
      exfalso. apply (Hother r1 o1); auto.
    + rewrite list_lookup_insert_ne in H1 by assumption.
      rewrite list_lookup_insert_ne in H2 by assumption.
      now apply (Hd r1 r2 o1 o2 n).
Qed.

Lemma fresh_append (w : world) (o' : obj) (i' : N) :
  renamed w None o' i' ->
  prefixes_below w -> prefixes_distinct w ->
  prefixes_below (World i' (nodes w ++ [o'])) /\
  prefixes_distinct (World i' (nodes w ++ [o'])).
Proof.
  intros Hren Hb Hd.
  assert (Hle : (index w <= i')%N)
    by (destruct Hren as [[-> _]|[[-> _]|[-> _]]]; lia).
  assert (Hnew : forall n, prefix_number (_name o') = Some n ->
            (n < i')%N /\
            (forall r2 o2, nodes w !! r2 = Some o2 ->
               prefix_number (_name o2) <> Some n)).
  { intros n Hn. destruct Hren as [[-> E]|[[-> (s & [=] & _)]|[-> E]]].
    - congruence.
    - rewrite E in Hn. injection Hn as <-. split; [lia|].
      intros r2 o2 H2 Hp. specialize (Hb r2 o2 _ H2 Hp). lia. }
  assert (Hlook : forall r x, (nodes w ++ [o']) !! r = Some x ->
            nodes w !! r = Some x \/ (r = length (nodes w) /\ x = o')).
  { intros r x Hr. apply lookup_app_Some in Hr as [Hr|[Hge Hr]]; [now left|].
    right. destruct (r - length (nodes w))%nat as [|k] eqn:Ek;
      [|discriminate Hr].
    injection Hr as <-. split; [lia|reflexivity]. }
  split.
  - intros r x n Hr Hn. cbn [nodes index] in *.
    destruct (Hlook r x Hr) as [Hold|[-> ->]].
    + specialize (Hb r x n Hold Hn). lia.
    + now apply Hnew.
  - intros r1 r2 o1 o2 n H1 H2 Hn1 Hn2. cbn [nodes index] in *.
    destruct (Hlook r1 o1 H1) as [Ho1|[-> ->]];
      destruct (Hlook r2 o2 H2) as [Ho2|[-> ->]]; try reflexivity.
    + now apply (Hd r1 r2 o1 o2 n).
    + exfalso. destruct (Hnew n Hn2) as [_ Hother].
      now apply (Hother r1 o1).
    + exfalso. destruct (Hnew n Hn1) as [_ Hother].
      now apply (Hother r2 o2).
Qed.

Lemma plain_define_name (w : world) (cls : string) (nm : option string)
    (old : option string) (o' : obj) :
  plain_name nm = true ->
  _name o' = fst (_define_name cls nm (index w)) ->
  renamed w old o' (snd (_define_name cls nm (index w))).
Proof.
  intros Hp Hn. unfold plain_name in Hp. unfold _define_name in *.
  destruct (truthy nm) eqn:Ht.
  - left. cbn in *. split; [reflexivity|]. rewrite Hn.
    destruct (prefix_number (default "" nm)); [discriminate|reflexivity].
  - right. right. cbn in *. split; [reflexivity|]. rewrite Hn.
    apply prefix_number_format.
Qed.

Lemma exec_keeps_fresh (c : cmd) (w : world) :
  plain c = true ->
  prefixes_below w -> prefixes_distinct w ->
  prefixes_below (exec c w) /\ prefixes_distinct (exec c w).
Proof.
  intros Hp Hb Hd. destruct c as [cls nm|self nm|self p|self];
    cbn [exec plain] in *; unfold update.
  - unfold __init__, bind.
    pose proof (plain_define_name w cls nm None
                  (Obj cls None (fst (_define_name cls nm (index w))))
                  Hp eq_refl) as Hren.
    destruct (_define_name cls nm (index w)) as [n i']. cbn [ret fst snd] in *.
    now apply fresh_append.
  - destruct (nodes w !! self) as [o|] eqn:E; [|now split].
    unfold set_name, bind.
    pose proof (plain_define_name w (cls_name o) nm (Some (_name o))
                  (Obj (cls_name o) (_parent o)
                     (fst (_define_name (cls_name o) nm (index w))))
                  Hp eq_refl) as Hren.
    destruct (_define_name (cls_name o) nm (index w)) as [n i'].
    cbn [ret fst snd] in *. now apply (fresh_insert w self o).
  - destruct (nodes w !! self) as [o|] eqn:E; [|now split].
    cbn [ret]. apply (fresh_insert w self o); try assumption.
    right. left. split; [reflexivity|]. now exists (_name o).
  - destruct (nodes w !! self) as [o|] eqn:E; [|now split].
    unfold _reset_name.
    destruct (String.eqb (hidden_name o) (name o)).
    + cbn [ret]. apply (fresh_insert w self o); try assumption.
      right. left. split; [reflexivity|]. now exists (_name o).
    + unfold bind. rewrite define_name_falsy by reflexivity. cbn [ret].
      apply (fresh_insert w self o); try assumption.
      right. right. split; [reflexivity|]. apply prefix_number_format.
Qed.

Lemma exec_all_keeps_fresh (cs : list cmd) :
  forall w, forallb plain cs = true ->
    prefixes_below w -> prefixes_distinct w ->
    prefixes_below (exec_all cs w) /\ prefixes_distinct (exec_all cs w).
Proof.
  induction cs as [|c cs IH]; intros w Hp Hb Hd; [now split|].
  cbn [forallb] in Hp. apply andb_prop in Hp as [Hc Hcs].
  destruct (exec_keeps_fresh c w Hc Hb Hd) as [Hb' Hd'].
  now apply (IH (exec c w)).
Qed.

End Freshness.

(** X7.  Starting from the empty process, as long as no caller passes an
    explicit name that itself starts with digits and a slash, the numeric
    prefixes stored in the tree stay below the counter and pairwise
    distinct, whatever nodes are created, renamed, attached or reset: two
    different nodes never carry the same numbered hidden name. *)
Theorem numbered_hidden_names_stay_unique (cs : list Parentable.cmd) :
  forallb Programs.plain cs = true ->
  let w := Programs.exec_all cs Parentable.empty_world in
  forall r1 r2 o1 o2,
    Parentable.nodes w !! r1 = Some o1 ->
    Parentable.nodes w !! r2 = Some o2 ->
    (forall n,
       Parentable.prefix_number (Parentable.hidden_name o1) = Some n ->
       (n < Parentable.index w)%N /\
       (Parentable.prefix_number (Parentable.hidden_name o2) = Some n ->
        r1 = r2)) /\
    (Parentable.prefix_number (Parentable.hidden_name o1) <> None ->
     Parentable.hidden_name o1 = Parentable.hidden_name o2 -> r1 = r2).
Proof.
  intros Hp w.
  destruct (exec_all_keeps_fresh cs Parentable.empty_world Hp) as [Hb Hd].
  { intros r o n Hr. destruct r; discriminate Hr. }
  { intros r1 r2 o1 o2 n Hr. destruct r1; discriminate Hr. }
  fold w in Hb, Hd. intros r1 r2 o1 o2 H1 H2.
  unfold Parentable.hidden_name. split.
  - intros n Hn. split; [now apply (Hb r1 o1)|].
    intros Hn2. now apply (Hd r1 r2 o1 o2 n).
  - intros Hsome Heq.
    destruct (Parentable.prefix_number (Parentable._name o1)) as [n|] eqn:E;
      [|congruence].
    apply (Hd r1 r2 o1 o2 n); try assumption. now rewrite <- Heq.
Qed.

Lemma numbered_hidden_names_stay_unique_witness :
  (2 < Parentable.index
         (Programs.exec_all
            [Parentable.New "Model" None; Parentable.New "Kern" (Some "k");
             Parentable.New "Param" None; Parentable.ResetName 0%nat;
             Parentable.SetName 1%nat None]
            Parentable.empty_world))%N.
Proof.
  apply (proj1 (numbered_hidden_names_stay_unique
                  [Parentable.New "Model" None;
                   Parentable.New "Kern" (Some "k");
                   Parentable.New "Param" None; Parentable.ResetName 0%nat;
                   Parentable.SetName 1%nat None]
                  eq_refl 0%nat 0%nat
                  (Parentable.Obj "Model" None "2/Model")
                  (Parentable.Obj "Model" None "2/Model")
                  eq_refl eq_refl) 2%N eq_refl).
Defined.

Lemma exec_new_explicit (cls s : string) (w : Parentable.world) :
  s <> "" ->
  Parentable.exec (Parentable.New cls (Some s)) w =
    Parentable.World (Parentable.index w)
      (Parentable.nodes w ++ [Parentable.Obj cls None s]).
Proof.
  intros Hs. cbn [Parentable.exec].
  unfold Parentable.__init__, Parentable.bind.
  now rewrite define_name_explicit.
Qed.

(** X8.  Nothing keeps a caller from passing the name the counter is about
    to produce: a node created with the explicit name [counter/ClassName]
    and the next node created without a name get the same hidden name (and
    the same [name]). *)
Theorem explicit_numbered_name_collides (cls : string) (idx : N)
    (h : list Parentable.obj) :
  let given := PyStr.format_index_name idx cls in
  let w := Programs.exec_all
             [Parentable.New cls (Some given); Parentable.New cls None]
             (Parentable.World idx h) in
  Parentable.nodes w !! length h = Some (Parentable.Obj cls None given) /\
  Parentable.nodes w !! S (length h) = Some (Parentable.Obj cls None given) /\
  Parentable.index w = (idx + 1)%N.
Proof.
  intros given w.
  assert (Hg : given <> "").
  { unfold given, PyStr.format_index_name.
    pose proof (str_of_N_nonempty idx) as Hne.
    destruct (PyStr.str_of_N idx); [congruence|discriminate]. }
  assert (E : w = Parentable.World (idx + 1)
                    ((h ++ [Parentable.Obj cls None given])
                       ++ [Parentable.Obj cls None given])).
  { unfold w, Programs.exec_all. cbn [fold_left].
    rewrite exec_new_explicit by assumption.
    now rewrite exec_new_falsy. }
  rewrite E. cbn [Parentable.nodes Parentable.index].
  repeat split.
  - rewrite lookup_app_l by (rewrite length_app; simpl; lia).
    rewrite lookup_app_r by lia. now rewrite Nat.sub_diag.
  - rewrite lookup_app_r by (rewrite length_app; simpl; lia).
    rewrite length_app. simpl.
    now replace (S (length h) - (length h + 1))%nat with 0%nat by lia.
Qed.

Section ClassIndexFacts.
Import ClassIndex.

Lemma getattr_setattr_other (a : attrs) (cls : string) (v : N)
    (mro : list string) :
  ~ In cls mro -> getattr (setattr a cls v) mro = getattr a mro.
Proof.
  induction mro as [|c mro IH]; intros Hin; [reflexivity|].
  cbn [getattr]. unfold setattr at 1.
  destruct (String.eqb_spec c cls) as [->|_].
  - exfalso. apply Hin. now left.
  - rewrite IH; [reflexivity|]. intros H. apply Hin. now right.
Qed.

End ClassIndexFacts.

(** X9.  Called on a class that holds the attribute itself, as
    [_define_name] does with [Parentable._read_index(self)], the class
    method returns the stored value and stores its successor on that class:
    it is the counter step [Parentable._read_index], and the attribute of
    every other class stays as it was. *)
Theorem read_index_on_owner (a : ClassIndex.attrs) (cls : string)
    (rest : list string) (i : N) :
  a cls = Some i ->
  ClassIndex._read_index (cls :: rest) a =
    Some (fst (Parentable._read_index i),
          ClassIndex.setattr a cls (snd (Parentable._read_index i))) /\
  (forall c, c <> cls ->
     ClassIndex.setattr a cls (snd (Parentable._read_index i)) c = a c).
Proof.
  intros Ha. split.
  - unfold ClassIndex._read_index. cbn [ClassIndex.getattr]. rewrite Ha.
    reflexivity.
  - intros c Hc. unfold ClassIndex.setattr.
    now destruct (String.eqb_spec c cls).
Qed.

Lemma read_index_on_owner_witness :
  ClassIndex._read_index ["Parentable"] ClassIndex.initial =
    Some (0%N, ClassIndex.setattr ClassIndex.initial "Parentable" 1%N).
Proof.
  apply (proj1 (read_index_on_owner ClassIndex.initial "Parentable" [] 0%N
                  eq_refl)).
Defined.

(** X10.  Called through a subclass that does not hold the attribute, the
    class method returns the inherited value but stores the successor on
    the subclass: the classes of the rest of the resolution order keep their
    value, so a later call on them returns the same index once more, while
    the subclass goes on counting on its own attribute. *)
Theorem read_index_through_subclass_forks (a : ClassIndex.attrs)
    (cls : string) (rest : list string) (i : N) :
  a cls = None ->
  ~ In cls rest ->
  ClassIndex.getattr a rest = Some i ->
  let a' := ClassIndex.setattr a cls (i + 1)%N in
  ClassIndex._read_index (cls :: rest) a = Some (i, a') /\
  ClassIndex.getattr a' rest = Some i /\
  (exists a'', ClassIndex._read_index rest a' = Some (i, a'')) /\
  ClassIndex._read_index (cls :: rest) a'
    = Some ((i + 1)%N, ClassIndex.setattr a' cls (i + 2)%N).
Proof.
  intros Hcls Hin Hrest a'.
  assert (Hrest' : ClassIndex.getattr a' rest = Some i)
    by (unfold a'; now rewrite getattr_setattr_other).
  split; [|split; [exact Hrest'|split]].
  - unfold ClassIndex._read_index. cbn [ClassIndex.getattr].
    rewrite Hcls, Hrest. reflexivity.
  - unfold ClassIndex._read_index. destruct rest as [|c rest'];
      [discriminate Hrest|].
    rewrite Hrest'. cbn. eauto.
  - assert (Ha' : a' cls = Some (i + 1)%N)
      by (unfold a', ClassIndex.setattr; now rewrite String.eqb_refl).
    unfold ClassIndex._read_index. cbn [ClassIndex.getattr].
    rewrite Ha'. cbn.
    now replace (i + 1 + 1)%N with (i + 2)%N by lia.
Qed.

Lemma read_index_through_subclass_forks_witness :
  ClassIndex._read_index ["Param"; "Parentable"] ClassIndex.initial
  = Some (0%N, ClassIndex.setattr ClassIndex.initial "Param" 1%N)
  /\ ClassIndex.getattr
       (ClassIndex.setattr ClassIndex.initial "Param" 1%N) ["Parentable"]
     = Some 0%N.
Proof.
  destruct (read_index_through_subclass_forks ClassIndex.initial "Param"
              ["Parentable"] 0%N) as (H1 & H2 & _).
  - reflexivity.
  - intros [H|[]]. discriminate H.
  - reflexivity.
  - split; [exact H1 | exact H2].
Defined.

(* ===================================================================== *)
(** * More on the model *)
(* ===================================================================== *)

Section MoreInit.
Import Py Numpy GPflow.
Variable B : TF.backend.
Variable G : GPflow.env B.

Lemma init_unfold X Y kern lik Z mf nl (qd : bool) wh mb seed (N : nat) :
  shape X !! 0%nat = Some N ->
  SVGP.__init__ B G X Y kern lik Z mf nl qd wh mb seed =
    (let bs := default (Z.of_nat N) mb in
     do L <- SVGP.num_latent_or B nl (MkMinibatchData Y bs (MkRandomState 0));
     do M <- shape_at Z 0;
     do q_mu_value <- zeros (TF.s0 B) [Z.of_nat M; L];
     do q_sqrt <-
       (if qd then
          do v <- ones (TF.s1 B) [Z.of_nat M; L];
          Ok (MkParam v (Some positive))
        else
          do q_sqrt <- swapaxes (array (SVGP.eye_list B M L)) 0 2;
          Ok (MkParam q_sqrt (Some (LowerTriangular (Z.of_nat M) L))));
     Ok (SVGP.Model B N (MkMinibatchData X bs (MkRandomState 0))
           (MkMinibatchData Y bs (MkRandomState 0)) kern lik
           (SVGP.GPModel_mean_function B G mf) qd wh (MkParam Z None) L M
           (MkParam q_mu_value None) q_sqrt seed)).
Proof.
  intros EX. unfold SVGP.__init__, shape_at at 1 2. rewrite EX.
  destruct mb; reflexivity.
Qed.

Lemma num_latent_or_spec (nl : option BinNums.Z) (Y : ndarray (TF.Scalar B))
    (bs : BinNums.Z) (rs : RandomState) :
  SVGP.num_latent_or B nl (MkMinibatchData Y bs rs) =
    match nl with
    | Some (Zpos _ as n) | Some (Zneg _ as n) => Ok n
    | _ => match shape Y !! 1%nat with
           | Some R => Ok (Z.of_nat R)
           | None => Raise IndexError
           end
    end.
Proof.
  unfold SVGP.num_latent_or, shape_at. cbn [data].
  destruct nl as [[|p|p]|]; cbn; destruct (shape Y !! 1%nat); reflexivity.
Qed.

End MoreInit.

(** X11.  [SVGP.__init__] returns a model exactly when [X] and [Z] have a
    first axis and the number of latents ([num_latent], or the second axis
    of [Y] when [num_latent] is omitted or 0) can be read and is at least 0
    with [q_diag], at least 1 without; no other property of the shapes or of
    the other arguments plays a part. *)
Theorem init_returns_exactly_when (B : TF.backend) (G : GPflow.env B)
    X Y kern lik Z mf nl (qd : bool) wh mb seed :
  (exists m, SVGP.__init__ B G X Y kern lik Z mf nl qd wh mb seed = Py.Ok m)
  <->
  (exists (N M : nat) (L : BinNums.Z),
     Numpy.shape X !! 0%nat = Some N /\
     Numpy.shape Z !! 0%nat = Some M /\
     SVGP.num_latent_or B nl
       (GPflow.MkMinibatchData Y (default (Z.of_nat N) mb)
          (GPflow.MkRandomState 0))
     = Py.Ok L /\
     ((if qd then 0 else 1) <= L)%Z).
Proof. apply init_returns_iff. Qed.

Lemma init_returns_exactly_when_witness :
  exists m,
    Examples.svgp64 Examples.X41 Examples.Y41 Examples.Z03
      (Dense.linear_kernel Dense.float64) (Some 3%Z) false true = Py.Ok m.
Proof.
  apply (proj2 (init_returns_exactly_when Examples.F64 Examples.env64
                  Examples.X41 Examples.Y41 _ _ Examples.Z03 None
                  (Some 3%Z) false true None 27184%Z)).
  exists 4%nat, 0%nat, 3%Z. repeat split. simpl. lia.
Defined.

(** X12.  The exception [SVGP.__init__] raises: [IndexError] when [X] has no
    axis, when the number of latents has to come from [Y] and [Y] has no
    second axis, or when [Z] has no axis (in this order); [ValueError] from
    [np.zeros] when the number of latents is negative; the axis error of
    [swapaxes(0, 2)] when there is no latent and the covariance is full. *)
Theorem init_raises (B : TF.backend) (G : GPflow.env B)
    X Y kern lik Z mf (nl : option BinNums.Z) (qd : bool) wh mb seed :
  let init := SVGP.__init__ B G X Y kern lik Z mf nl qd wh mb seed in
  (Numpy.shape X !! 0%nat = None -> init = Py.Raise Py.IndexError) /\
  (forall N : nat,
     Numpy.shape X !! 0%nat = Some N ->
     (nl = None \/ nl = Some 0%Z) ->
     Numpy.shape Y !! 1%nat = None ->
     init = Py.Raise Py.IndexError) /\
  (forall (N : nat) (L : BinNums.Z),
     Numpy.shape X !! 0%nat = Some N ->
     SVGP.num_latent_or B nl
       (GPflow.MkMinibatchData Y (default (Z.of_nat N) mb)
          (GPflow.MkRandomState 0)) = Py.Ok L ->
     (Numpy.shape Z !! 0%nat = None -> init = Py.Raise Py.IndexError) /\
     (forall M : nat,
        Numpy.shape Z !! 0%nat = Some M ->
        ((L < 0)%Z -> init = Py.Raise Py.ValueError) /\
        (L = 0%Z -> qd = false -> init = Py.Raise Py.AxisError))).
Proof.
  intros init. split; [|split].
  - intros EX. unfold init, SVGP.__init__, Numpy.shape_at. rewrite EX.
    destruct mb; reflexivity.
  - intros N EX Hnl EY. unfold init.
    rewrite (init_unfold B G _ _ _ _ _ _ _ _ _ _ _ N EX).
    cbn zeta. rewrite num_latent_or_spec.
    destruct Hnl as [-> | ->]; rewrite EY; reflexivity.
  - intros N L EX EL. unfold init.
    rewrite (init_unfold B G _ _ _ _ _ _ _ _ _ _ _ N EX). cbn zeta.
    rewrite EL. cbn [Py.bind]. unfold Numpy.shape_at. split.
    + intros ->. reflexivity.
    + intros M ->. cbn [Py.bind]. unfold Numpy.zeros, Numpy.ones. split.
      * intros HL. now rewrite filled_negative.
      * intros -> ->. rewrite filled_ok by lia. cbn [Py.bind].
        now rewrite swapaxes_eye_list_none.
Qed.

Lemma init_raises_witness :
  Examples.svgp64 Examples.X41 Examples.Y41 Examples.Z21
    (Dense.linear_kernel Dense.float64) (Some (-2)%Z) true true
  = Py.Raise Py.ValueError
  /\ Examples.svgp64 Examples.X41 (Examples.matrix 4 0 []) Examples.Z21
       (Dense.linear_kernel Dense.float64) None false true
     = Py.Raise Py.AxisError
  /\ Examples.svgp64 Examples.X41
       (Numpy.NDArray [4%nat] [1%nat] [1; 0; 1; 0]%float) Examples.Z21
       (Dense.linear_kernel Dense.float64) (Some 0%Z) false true
     = Py.Raise Py.IndexError.
Proof.
  split; [|split].
  - destruct (init_raises Examples.F64 Examples.env64 Examples.X41
                Examples.Y41 (Dense.linear_kernel Dense.float64)
                (Dense.gaussian Dense.float64) Examples.Z21 None
                (Some (-2)%Z) true true None 27184%Z) as (_ & _ & H).
    destruct (H 4%nat (-2)%Z eq_refl eq_refl) as [_ H'].
    apply (proj1 (H' 2%nat eq_refl)). lia.
  - destruct (init_raises Examples.F64 Examples.env64 Examples.X41
                (Examples.matrix 4 0 []) (Dense.linear_kernel Dense.float64)
                (Dense.gaussian Dense.float64) Examples.Z21 None
                None false true None 27184%Z) as (_ & _ & H).
    destruct (H 4%nat 0%Z eq_refl eq_refl) as [_ H'].
    apply (proj2 (H' 2%nat eq_refl)); reflexivity.
  - destruct (init_raises Examples.F64 Examples.env64 Examples.X41
                (Numpy.NDArray [4%nat] [1%nat] [1; 0; 1; 0]%float)
                (Dense.linear_kernel Dense.float64)
                (Dense.gaussian Dense.float64) Examples.Z21 None
                (Some 0%Z) false true None 27184%Z) as (_ & H & _).
    apply (H 4%nat); [reflexivity | now right | reflexivity].
Defined.

(** X13.  [num_latent=0] cannot be asked for: it is treated as omitted and
    replaced by the column count of [Y].  A non-zero [num_latent] is stored
    as given; a constructed model has no latent only when [Y] has no column
    and the covariance is diagonal. *)
Theorem num_latent_zero_is_omitted (B : TF.backend) (G : GPflow.env B)
    X Y kern lik Z mf (nl : option BinNums.Z) (qd : bool) wh mb seed :
  SVGP.__init__ B G X Y kern lik Z mf (Some 0%Z) qd wh mb seed
  = SVGP.__init__ B G X Y kern lik Z mf None qd wh mb seed /\
  (forall m,
     SVGP.__init__ B G X Y kern lik Z mf nl qd wh mb seed = Py.Ok m ->
     (forall n, nl = Some n -> n <> 0%Z -> SVGP.num_latent m = n) /\
     (nl = None \/ nl = Some 0%Z ->
      exists R : nat, Numpy.shape Y !! 1%nat = Some R /\
                      SVGP.num_latent m = Z.of_nat R) /\
     (SVGP.num_latent m = 0%Z ->
      qd = true /\ Numpy.shape Y !! 1%nat = Some 0%nat)).
Proof.
  split; [reflexivity|].
  intros m H. apply init_inv in H
    as (N & M & bs & L & _ & _ & _ & EL & HL0 & _ & _ & _ & _ & _ & _ & _
        & _ & _ & HL & _ & _ & _ & Hsq).
  rewrite num_latent_or_spec in EL. rewrite HL.
  assert (Hfalsy : nl = None \/ nl = Some 0%Z ->
            exists R : nat, Numpy.shape Y !! 1%nat = Some R /\ L = Z.of_nat R).
  { intros [-> | ->]; destruct (Numpy.shape Y !! 1%nat) as [R|];
      try discriminate EL; injection EL as <-; eauto. }
  split; [|split; [exact Hfalsy|]].
  - intros n -> Hn. destruct n; [congruence| |]; now injection EL.
  - intros ->. split.
    + destruct qd; [reflexivity|]. destruct Hsq as [H1 _]. lia.
    + destruct nl as [[|p|p]|]; try discriminate EL.
      * destruct (Hfalsy (or_intror eq_refl)) as (R & -> & HR).
        f_equal. lia.
      * destruct (Hfalsy (or_introl eq_refl)) as (R & -> & HR).
        f_equal. lia.
Qed.

Lemma num_latent_zero_is_omitted_witness :
  SVGP.num_latent Examples.scenario64 = 1%Z.
Proof.
  destruct (num_latent_zero_is_omitted Examples.F64 Examples.env64
              Examples.X41 Examples.Y41 (Dense.linear_kernel Dense.float64)
              (Dense.gaussian Dense.float64) Examples.Z21 None None false
              true None 27184%Z) as [_ H].
  destruct (H Examples.scenario64 eq_refl) as (_ & H2 & _).
  destruct (H2 (or_introl eq_refl)) as (R & HR & ->).
  cbn in HR. now injection HR as <-.
Defined.

(** X16.  Without whitening, the true kernel matrix [kern.K(Z)] and its
    Cholesky factor are computed and then left unused: as long as the kernel
    call and the two operations on its matrix raise for neither kernel,
    [linear_weights_posterior] gives the same result with any other kernel
    that has the same feature map. *)
Theorem linear_weights_posterior_unwhitened_ignores_K (B : TF.backend)
    (G : GPflow.env B) (m : SVGP.model B) (kern' : GPflow.Kernel B)
    (feat_map : TF.Tensor B -> Py.result (TF.Tensor B)) (Phi : TF.Tensor B) :
  SVGP.whiten m = false ->
  GPflow.create_feature_map_func (SVGP.kern m)
    (SVGP.random_seed_for_random_features m) = Py.Ok feat_map ->
  GPflow.create_feature_map_func kern'
    (SVGP.random_seed_for_random_features m) = Py.Ok feat_map ->
  let Z := SVGP.tensor_of B (SVGP.Z_ m) in
  feat_map Z = Py.Ok Phi ->
  GPflow.K_raises (SVGP.kern m) Z = None ->
  Forall (fun c => TF.raises B c = None)
    (Spec.true_kernel_operations B G (SVGP.kern m) Z Phi) ->
  GPflow.K_raises kern' Z = None ->
  Forall (fun c => TF.raises B c = None)
    (Spec.true_kernel_operations B G kern' Z Phi) ->
  SVGP.linear_weights_posterior B G (SVGP.with_kern m kern')
  = SVGP.linear_weights_posterior B G m.
Proof.
  intros Hw HF HF' Z HPhi HK Hops HK' Hops'.
  destruct (Z.eqb_spec (SVGP.num_latent m) 1) as [HL|HL].
  - rewrite (linear_weights_posterior_outcome B G (SVGP.with_kern m kern')
               feat_map Phi HL HF' HPhi).
    rewrite (linear_weights_posterior_outcome B G m feat_map Phi HL HF HPhi).
    cbn [SVGP.with_kern SVGP.kern SVGP.Z_ SVGP.q_mu SVGP.q_sqrt SVGP.whiten].
    fold Z. rewrite Hw.
    unfold Spec.true_kernel_operations, Spec.K_true, Spec.jitter_I
      in Hops, Hops'.
    apply Forall_cons in Hops as [Ha Hops].
    apply Forall_cons in Hops as [Hc _].
    apply Forall_cons in Hops' as [Ha' Hops'].
    apply Forall_cons in Hops' as [Hc' _].
    cbv beta iota zeta delta
      [Py.first_raise app map
       Spec.failure Spec.operations Spec.jitter_operations
       Spec.true_kernel_operations Spec.jitter_I
       Spec.weight_mean Spec.weight_covariance Spec.QsrttLiPhi
       Spec.LitLiPhi Spec.R Spec.LiPhi Spec.Kzzinv_u Spec.u Spec.L_approx
       Spec.K_approx Spec.L_true Spec.K_true Spec.tmul Spec.mmul].
    rewrite HK, HK', Ha, Ha', Hc, Hc'. reflexivity.
  - unfold SVGP.linear_weights_posterior. cbn [SVGP.with_kern SVGP.num_latent].
    apply Z.eqb_neq in HL. now rewrite HL.
Qed.

Lemma linear_weights_posterior_unwhitened_ignores_K_witness :
  let m := SVGP.Model Examples.F64 4
             (SVGP.X Examples.scenario64) (SVGP.Y Examples.scenario64)
             (SVGP.kern Examples.scenario64)
             (SVGP.likelihood Examples.scenario64)
             (SVGP.mean_function Examples.scenario64)
             false false
             (SVGP.Z_ Examples.scenario64) 1%Z 2%nat
             (SVGP.q_mu Examples.scenario64) (SVGP.q_sqrt Examples.scenario64)
             27184%Z in
  let kern' := GPflow.MkKernel Examples.F64
                 (fun _ => Dense.eye Dense.float64 2 None)
                 (fun _ => None)
                 (GPflow.create_feature_map_func (SVGP.kern m)) in
  SVGP.linear_weights_posterior Examples.F64 Examples.env64
    (SVGP.with_kern m kern')
  = SVGP.linear_weights_posterior Examples.F64 Examples.env64 m.
Proof.
  intros m kern'.
  apply (linear_weights_posterior_unwhitened_ignores_K Examples.F64
           Examples.env64 m kern' (fun X => Py.Ok X) Examples.Z21
           eq_refl eq_refl eq_refl eq_refl).
  - reflexivity.
  - repeat constructor.
  - reflexivity.
  - repeat constructor.
Defined.

Section Float64Facts.

Lemma float_div_zero (x : float) :
  Dense.finite_nonzero x = true ->
  Float64.infinite (PrimFloat.div x 0%float) = true.
Proof.
  intros H. unfold Float64.infinite. rewrite classify_spec, div_spec.
  unfold Dense.finite_nonzero in H. rewrite classify_spec in H.
  change (Prim2SF 0%float) with (S754_zero false).
  destruct (Prim2SF x) as [[|]|[|]| |s m e]; try discriminate H.
  destruct s; reflexivity.
Qed.

End Float64Facts.

(** X17.  The rescale factor is not guarded against a batch without rows:
    in binary64, with a batch of zero rows, [scale] is an infinity when
    [num_data] converts to a finite non-zero number, and not a number when
    [num_data] is 0. *)
Theorem scale_of_an_empty_batch (m : SVGP.model Examples.F64)
    (X_batch : Numpy.ndarray float) :
  TF.dim Examples.F64 X_batch 0 = 0%Z ->
  (Dense.finite_nonzero (Dense.float_of_Z (Z.of_nat (SVGP.num_data m)))
   = true ->
   Float64.infinite (Float64.item (SVGP.scale Examples.F64 m X_batch))
   = true) /\
  (SVGP.num_data m = 0%nat ->
   PrimFloat.is_nan (Float64.item (SVGP.scale Examples.F64 m X_batch))
   = true).
Proof.
  intros Hd. unfold SVGP.scale. rewrite Hd.
  assert (E : forall z,
            Float64.item
              (TF.div Examples.F64 (TF.cast Examples.F64 z)
                 (TF.cast Examples.F64 0))
            = PrimFloat.div (Dense.float_of_Z z) 0%float) by reflexivity.
  rewrite E. split.
  - apply float_div_zero.
  - intros ->. reflexivity.
Qed.

Lemma scale_of_an_empty_batch_witness :
  Float64.infinite
    (Float64.item (SVGP.scale Examples.F64 Examples.scenario64 Examples.X01))
  = true.
Proof.
  apply (proj1 (scale_of_an_empty_batch Examples.scenario64 Examples.X01
                  eq_refl)).
  reflexivity.
Defined.
